(** * Floor Markets client: a shallow embedding of the Market facade,
      the trade executor and the data-fetch hooks.

    The TypeScript sources embedded here are
    - [src/client/market.ts]   (class [Market]: [approveFToken] and the
      [actions] mutations [buy], [sell], [approve]);
    - the trade executor ([executeBuyTrade], [executeSellTrade]);
    - the read hooks ([usePlatformMetricsQuery], [useMarketsQuery],
      [useMarketQuery], [useMarketTradesQuery], [useUserTradesQuery],
      [useAccountQuery]).

    Conventions.
    - A [bigint] is a [Z]; BigInt division [/] truncates toward zero and is
      therefore [Z.quot], not [Z.div].
    - [slippageBps] is a JavaScript [number].  It is embedded on the
      integer-valued numbers for which the double subtraction
      [10000 - slippageBps] is exact (see [exact_bps]); fractional numbers
      are outside the embedding.
    - An [async] function is a computation in the monad [Async]: it threads
      a journal of the contract calls issued and of the console lines
      written, and ends either with a value or with a thrown exception.
    - The chain (wagmi's [readContract] / [writeContract] behind a
      [config]) is an oracle carried by [Config]; a contract read is typed by
      the ABI entry it names.
    - [useConfig()] is a React hook: it returns the config of the enclosing
      provider while a component renders, and throws anywhere else (in an
      event handler, or without a provider).  The mutations of [actions]
      close over the config taken when the getter ran; [approveFToken] and
      [getFTokenAllowance] call the hook themselves, so the outcome of that
      call is their argument [useConfig]. *)

From Stdlib Require Import ZArith Lia List String DecimalString.
From stdpp Require Import base gmap strings list.

Open Scope Z_scope.

(* ===================================================================== *)
(** ** JavaScript values used by the client *)
(* ===================================================================== *)

(** The template type [`0x${string}`]: addresses and transaction hashes. *)
Abbreviation Address := string (only parsing).
Abbreviation Hash := string (only parsing).

(** [new Error(message)], and any rejection of an underlying call. *)
Inductive Exn : Type :=
| Error (message : string).

Definition message (e : Exn) : string :=
  match e with Error m => m end.

(** [BigInt.prototype.toString()]: decimal digits, with a leading minus
    sign for negative values. *)
Definition toString (z : Z) : string :=
  NilZero.string_of_int (Z.to_int z).

(** [BigInt(n)] for an integer-valued number [n]. *)
Definition BigInt (n : Z) : Z := n.

(** Integer-valued [slippageBps] on which [10000 - slippageBps] is computed
    exactly by double arithmetic (every integer of magnitude at most 2^53
    is a double). *)
Definition exact_bps (slippageBps : Z) : Prop :=
  10000 - 2 ^ 53 <= slippageBps <= 2 ^ 53.

(** Truthiness of an optional address ([!account.address] is its
    negation): [undefined] and the empty string are falsy. *)
Definition truthy (a : option Address) : bool :=
  match a with
  | Some s => negb (String.eqb s "")
  | None => false
  end.

(** The address once it is known to be present. *)
Definition the (a : option Address) : Address := default "" a.

(* ===================================================================== *)
(** ** Contract interfaces *)
(* ===================================================================== *)

(** Read entry points of the two ABIs, indexed by the decoded result.
    [Floor_v1]: [calculatePurchaseReturn], [calculateSaleReturn],
    [isBuyOpen], [isSellOpen], [getIssuanceToken].
    [ERC20Issuance_v1]: [balanceOf], [allowance]. *)
Inductive ReadFn : Type -> Type :=
| calculatePurchaseReturn (depositAmount : Z) : ReadFn Z
| calculateSaleReturn (depositAmount : Z) : ReadFn Z
| isBuyOpen : ReadFn bool
| isSellOpen : ReadFn bool
| getIssuanceToken : ReadFn Address
| balanceOf (owner : Address) : ReadFn Z
| allowance (owner spender : Address) : ReadFn Z.

(** State-changing entry points; each yields a transaction hash. *)
Inductive WriteFn : Type :=
| fn_buy (depositAmount minAmountOut : Z)
| fn_sell (depositAmount minAmountOut : Z)
| fn_approve (spender : Address) (amount : Z).

(** One contract call as it reaches the wallet/RPC layer. *)
Inductive Call : Type :=
| Read {A : Type} (address : Address) (fn : ReadFn A)
| Write (address : Address) (fn : WriteFn).

(** One console line. *)
Inductive ConsoleLine : Type :=
| console_log (text : string)
| console_error (label : string) (error : Exn).

Record Journal : Type := mkJournal {
  calls : list Call;
  console : list ConsoleLine
}.

Definition no_journal : Journal := {| calls := []; console := [] |}.

Definition is_write (c : Call) : bool :=
  match c with Write _ _ => true | Read _ _ => false end.

Definition is_read (c : Call) : bool := negb (is_write c).

Definition is_allowance_read (c : Call) : bool :=
  match c with
  | Read _ (allowance _ _) => true
  | _ => false
  end.

(* ===================================================================== *)
(** ** The [Async] monad: journal plus exceptions *)
(* ===================================================================== *)

Definition Outcome (A : Type) : Type := (Exn + A)%type.

Definition Async (A : Type) : Type := Journal -> Outcome A * Journal.

#[global] Instance Async_ret : MRet Async :=
  fun A (a : A) j => (inr a, j).

#[global] Instance Async_bind : MBind Async :=
  fun A B (k : A -> Async B) (m : Async A) j =>
    match m j with
    | (inr a, j') => k a j'
    | (inl e, j') => (inl e, j')
    end.

Definition throw {A : Type} (e : Exn) : Async A :=
  fun j => (inl e, j).

(** [try { body } catch (error) { handler }]. *)
Definition try_catch {A : Type} (body : Async A) (handler : Exn -> Async A)
  : Async A :=
  fun j =>
    match body j with
    | (inl e, j') => handler e j'
    | (inr a, j') => (inr a, j')
    end.

(** [if (cond) { throw e }]. *)
Definition throw_if (cond : bool) (e : Exn) : Async unit :=
  if cond then throw e else mret tt.

Definition log_call (c : Call) : Async unit :=
  fun j => (inr tt, {| calls := calls j ++ [c]; console := console j |}).

Definition log_console (l : ConsoleLine) : Async unit :=
  fun j => (inr tt, {| calls := calls j; console := console j ++ [l] |}).

(** Lift the settled result of an awaited promise. *)
Definition settle {A : Type} (r : Outcome A) : Async A :=
  fun j => (r, j).

(** Run a computation from an empty journal. *)
Definition run {A : Type} (m : Async A) : Outcome A * Journal :=
  m no_journal.

Definition result {A : Type} (m : Async A) : Outcome A := fst (run m).
Definition issued {A : Type} (m : Async A) : list Call := calls (snd (run m)).
Definition printed {A : Type} (m : Async A) : list ConsoleLine :=
  console (snd (run m)).

(** The transactions a computation submits. *)
Definition submitted {A : Type} (m : Async A) : list Call :=
  List.filter is_write (issued m).

(* ===================================================================== *)
(** ** wagmi: [config], [getAccount], [readContract], [writeContract] *)
(* ===================================================================== *)

Record Account : Type := { address : option Address }.

(** What stands behind wagmi's [config]: the wallet connection and the
    chain answering reads and writes. *)
Record Config : Type := {
  account_address : option Address;
  chain_read : forall A : Type, Address -> ReadFn A -> Outcome A;
  chain_write : Address -> WriteFn -> Outcome Hash
}.

Definition getAccount (config : Config) : Account :=
  {| address := account_address config |}.

Definition readContract {A : Type} (config : Config)
    (addr : Address) (fn : ReadFn A) : Async A :=
  log_call (Read addr fn);;
  settle (chain_read config A addr fn).

Definition writeContract (config : Config)
    (addr : Address) (fn : WriteFn) : Async Hash :=
  log_call (Write addr fn);;
  settle (chain_write config addr fn).

(* ===================================================================== *)
(** ** [market.ts]: the Market facade *)
(* ===================================================================== *)

Record TMarketBuyParams : Type := {
  buy_depositAmount : Z;
  buy_slippageBps : option Z
}.

Record TMarketSellParams : Type := {
  sell_depositAmount : Z;
  sell_slippageBps : option Z
}.

Record TMarketApproveParams : Type := { amount : Z }.

Record TMarketMutationResult : Type := { hash : Hash }.

Record Market : Type := { marketAddress : Address }.

Definition getAddress (this : Market) : Address := marketAddress this.

(** [(expectedOut * BigInt(10000 - slippageBps)) / BigInt(10000)], the
    expression bound to [minAmountOut] in both [buy] and [sell]. *)
Definition minAmountOut (expectedOut slippageBps : Z) : Z :=
  (expectedOut * BigInt (10000 - slippageBps)) ÷ BigInt 10000.

Definition wallet_not_connected : string :=
  "Wallet not connected. Please connect your wallet to continue.".

Definition invalid_amount : string :=
  "Invalid amount. Amount must be greater than 0.".

Definition invalid_approval_amount : string :=
  "Invalid approval amount. Amount must be greater than 0.".

Definition selling_not_enabled : string :=
  "Selling is not enabled on this market. Contact admin to enable selling.".

Definition insufficient_balance (balance depositAmount : Z) : string :=
  "Insufficient fToken balance. You have " +:+ toString balance
  +:+ " but trying to sell " +:+ toString depositAmount.

Definition newline : string := String (Ascii.ascii_of_nat 10) EmptyString.

Definition insufficient_allowance
    (depositAmount allowance_ : Z) (fTokenAddress : Address) : string :=
  "Insufficient fToken allowance. Please approve the Floor contract to spend your fTokens first."
  +:+ newline +:+ newline +:+ "Required: " +:+ toString depositAmount
  +:+ newline +:+ "Current: " +:+ toString allowance_
  +:+ newline +:+ newline +:+ "Approve fToken at: " +:+ fTokenAddress.

(** [Market.approveFToken(amount)].  [useConfig] is the outcome of the
    hook call [useConfig()] that opens the method. *)
Definition approveFToken (useConfig : Outcome Config) (this : Market)
    (amount : Z) : Async TMarketMutationResult :=
  config ← settle useConfig;
  fTokenAddress ← readContract config (marketAddress this) getIssuanceToken;
  log_console (console_log
    ("Approving fToken " +:+ fTokenAddress +:+ " for amount "
     +:+ toString amount +:+ "..."));;
  hash ← writeContract config fTokenAddress
           (fn_approve (marketAddress this) amount);
  log_console (console_log ("✅ fToken approval tx: " +:+ hash));;
  mret {| hash := hash |}.

(** [Market.getFTokenAllowance()].  [useConfig] is the outcome of the
    hook call [useConfig()] that opens the method. *)
Definition getFTokenAllowance (useConfig : Outcome Config) (this : Market)
  : Async Z :=
  config ← settle useConfig;
  let account := getAccount config in
  throw_if (negb (truthy (address account))) (Error "Wallet not connected");;
  fTokenAddress ← readContract config (marketAddress this) getIssuanceToken;
  allowance_ ← readContract config fTokenAddress
                 (allowance (the (address account)) (marketAddress this));
  mret allowance_.

(** [actions.buy({ depositAmount, slippageBps = 50 })]. *)
Definition buy (config : Config) (this : Market) (params : TMarketBuyParams)
  : Async TMarketMutationResult :=
  let depositAmount := buy_depositAmount params in
  let slippageBps := default 50 (buy_slippageBps params) in
  try_catch
    (let account := getAccount config in
     throw_if (negb (truthy (address account))) (Error wallet_not_connected);;
     throw_if (depositAmount <=? BigInt 0) (Error invalid_amount);;
     expectedOut ← readContract config (marketAddress this)
                     (calculatePurchaseReturn depositAmount);
     let minAmountOut := minAmountOut expectedOut slippageBps in
     hash ← writeContract config (marketAddress this)
              (fn_buy depositAmount minAmountOut);
     mret {| hash := hash |})
    (fun error =>
       log_console (console_error "Buy error:" error);;
       throw error).

(** [actions.sell({ depositAmount, slippageBps = 50 })]. *)
Definition sell (config : Config) (this : Market) (params : TMarketSellParams)
  : Async TMarketMutationResult :=
  let depositAmount := sell_depositAmount params in
  let slippageBps := default 50 (sell_slippageBps params) in
  try_catch
    (let account := getAccount config in
     throw_if (negb (truthy (address account))) (Error wallet_not_connected);;
     throw_if (depositAmount <=? BigInt 0) (Error invalid_amount);;
     isSellOpen_ ← readContract config (marketAddress this) isSellOpen;
     throw_if (negb isSellOpen_) (Error selling_not_enabled);;
     fTokenAddress ← readContract config (marketAddress this) getIssuanceToken;
     balance ← readContract config fTokenAddress
                 (balanceOf (the (address account)));
     throw_if (balance <? depositAmount)
       (Error (insufficient_balance balance depositAmount));;
     allowance_ ← readContract config fTokenAddress
                    (allowance (the (address account)) (marketAddress this));
     throw_if (allowance_ <? depositAmount)
       (Error (insufficient_allowance depositAmount allowance_ fTokenAddress));;
     expectedOut ← readContract config (marketAddress this)
                     (calculateSaleReturn depositAmount);
     let minAmountOut := minAmountOut expectedOut slippageBps in
     hash ← writeContract config (marketAddress this)
              (fn_sell depositAmount minAmountOut);
     mret {| hash := hash |})
    (fun error =>
       log_console (console_error "Sell error:" error);;
       throw error).

(** [actions.approve({ amount })]. *)
Definition approve (config : Config) (this : Market)
    (params : TMarketApproveParams) : Async TMarketMutationResult :=
  let amount := amount params in
  try_catch
    (let account := getAccount config in
     throw_if (negb (truthy (address account))) (Error wallet_not_connected);;
     throw_if (amount <=? BigInt 0) (Error invalid_approval_amount);;
     fTokenAddress ← readContract config (marketAddress this) getIssuanceToken;
     log_console (console_log
       ("Approving fToken " +:+ fTokenAddress +:+ " for amount "
        +:+ toString amount +:+ "..."));;
     hash ← writeContract config fTokenAddress
              (fn_approve (marketAddress this) amount);
     log_console (console_log ("✅ fToken approval tx: " +:+ hash));;
     mret {| hash := hash |})
    (fun error =>
       log_console (console_error "Approve error:" error);;
       throw error).

(* ===================================================================== *)
(** ** The trade executor *)
(* ===================================================================== *)

Module Trade.

(** viem's [Account] object held by a wallet client. *)
Record ViemAccount : Type := { viem_address : Address }.

(** The argument of [walletClient.writeContract]. *)
Record WriteRequest : Type := {
  req_address : Address;
  req_fn : WriteFn;
  req_chain : option Z;
  req_account : ViemAccount
}.

(** viem's [WalletClient]: its account and chain, and the answer of the
    wallet to a submission. *)
Record WalletClient : Type := {
  account : option ViemAccount;
  chain : option Z;
  submit : WriteRequest -> Outcome Hash
}.

Definition wallet_writeContract (walletClient : WalletClient)
    (request : WriteRequest) : Async Hash :=
  log_call (Write (req_address request) (req_fn request));;
  settle (submit walletClient request).

Record BuyTradeParams : Type := {
  buy_floorAssetAddress : Address;
  depositAmount : string;
  buy_minAmountOut : string;
  buy_decimals : Z
}.

Record SellTradeParams : Type := {
  sell_floorAssetAddress : Address;
  sellAmount : string;
  sell_minAmountOut : string;
  sell_decimals : Z
}.

Inductive Direction : Type := dir_buy | dir_sell.

Record TradeResult : Type := {
  hash : Hash;
  direction : Direction
}.

Definition account_not_available : string :=
  "Wallet account is not available".

Section Executor.

(** viem's [parseUnits(value, decimals)]: the decimal string scaled by
    [10 ^ decimals], or an exception on a malformed string. *)
Variable parseUnits : string -> Z -> Outcome Z.

Definition executeBuyTrade (walletClient : WalletClient)
    (params : BuyTradeParams) : Async TradeResult :=
  let floorAssetAddress := buy_floorAssetAddress params in
  let depositAmount := depositAmount params in
  let minAmountOut := buy_minAmountOut params in
  let decimals := buy_decimals params in
  match account walletClient with
  | None => (* [!walletClient.account] *)
      throw (Error account_not_available)
  | Some account_ =>
      depositAmountWei ← settle (parseUnits depositAmount decimals);
      minAmountOutWei ← settle (parseUnits minAmountOut decimals);
      hash ← wallet_writeContract walletClient
               {| req_address := floorAssetAddress;
                  req_fn := fn_buy depositAmountWei minAmountOutWei;
                  req_chain := chain walletClient;
                  req_account := account_ |};
      mret {| hash := hash; direction := dir_buy |}
  end.

Definition executeSellTrade (walletClient : WalletClient)
    (params : SellTradeParams) : Async TradeResult :=
  let floorAssetAddress := sell_floorAssetAddress params in
  let sellAmount := sellAmount params in
  let minAmountOut := sell_minAmountOut params in
  let decimals := sell_decimals params in
  match account walletClient with
  | None => (* [!walletClient.account] *)
      throw (Error account_not_available)
  | Some account_ =>
      sellAmountWei ← settle (parseUnits sellAmount decimals);
      minAmountOutWei ← settle (parseUnits minAmountOut decimals);
      hash ← wallet_writeContract walletClient
               {| req_address := floorAssetAddress;
                  req_fn := fn_sell sellAmountWei minAmountOutWei;
                  req_chain := chain walletClient;
                  req_account := account_ |};
      mret {| hash := hash; direction := dir_sell |}
  end.

(** [useTrade().buyMutation] and [sellMutation]: the wallet client itself
    may be missing. *)
Definition wallet_missing : string :=
  "Wallet not connected. Please connect your wallet to trade.".

Definition buyMutation (walletClient : option WalletClient)
    (params : BuyTradeParams) : Async TradeResult :=
  match walletClient with
  | None => throw (Error wallet_missing)
  | Some walletClient => executeBuyTrade walletClient params
  end.

Definition sellMutation (walletClient : option WalletClient)
    (params : SellTradeParams) : Async TradeResult :=
  match walletClient with
  | None => throw (Error wallet_missing)
  | Some walletClient => executeSellTrade walletClient params
  end.

End Executor.

(** An instance of [parseUnits] on whole-number strings (digits only):
    the number scaled by [10 ^ decimals]; any other string is rejected.
    It is used to run the executor on concrete inputs. *)
Definition parseUnits_whole (value : string) (decimals : Z) : Outcome Z :=
  match NilZero.uint_of_string value with
  | Some d => inr (Z.of_uint d * 10 ^ decimals)
  | None => inl (Error "Invalid decimal number")
  end.

End Trade.

(* ===================================================================== *)
(** ** The data-fetch hooks *)
(* ===================================================================== *)

Module Hooks.

(** The parameter type [string | null | undefined]. *)
Inductive Ident : Type :=
| undefined
| null
| str (s : string).

(** [Boolean(id)]. *)
Definition Boolean (id : Ident) : bool :=
  match id with
  | str s => negb (String.eqb s "")
  | undefined | null => false
  end.

(** The fetch functions of the GraphQL API, applied. *)
Inductive Fetch : Type :=
| fetchPlatformMetrics
| fetchMarkets
| fetchMarketById (id : Ident)
| fetchTradesByMarket (id : Ident)
| fetchTradesByUser (id : Ident)
| fetchAccountById (id : Ident).

(** Values stored in an options object.  [JQueryFn f] is the closure
    whose call performs the fetch [f]; [JOpaque] stands for any other
    object or function carried through unchanged. *)
Inductive JsVal : Type :=
| JUndefined
| JNull
| JBool (b : bool)
| JNumber (n : Z)
| JString (s : string)
| JQueryFn (f : Fetch)
| JOpaque (tag : string).

(** A JavaScript object used as a bag of named options. *)
Abbreviation Obj := (gmap string JsVal).

Definition nullish (v : JsVal) : bool :=
  match v with
  | JUndefined | JNull => true
  | _ => false
  end.

(** [options?.field]. *)
Definition opt_get (options : option Obj) (field : string) : JsVal :=
  match options with
  | Some o => default JUndefined (o !! field)
  | None => JUndefined
  end.

(** [v ?? d]. *)
Definition coalesce (v d : JsVal) : JsVal :=
  if nullish v then d else v.

(** [{ ...base, ...options }]: later properties win. *)
Definition spread (options : option Obj) (base : Obj) : Obj :=
  match options with
  | Some o => o ∪ base
  | None => base
  end.

(** The cache keys built by the [query-keys] module. *)
Record QueryKeys : Type := {
  platformMetricsQueryKey : JsVal;
  marketsQueryKey : JsVal;
  marketQueryKey : Ident -> JsVal;
  marketTradesQueryKey : Ident -> JsVal;
  userTradesQueryKey : Ident -> JsVal;
  accountQueryKey : Ident -> JsVal
}.

(** What a hook hands back: the options the query layer observes,
    whether the query is enabled, and the fetches it starts. *)
Record UseQueryResult : Type := {
  observed : Obj;
  isEnabled : bool;
  fetches : list Fetch
}.

(** Modelled from the spec: the query-caching library, an external
    collaborator.  A query is disabled exactly when its [enabled] option
    is [false]; a disabled query is never fetched, an enabled one calls
    its [queryFn].  (A function-valued [enabled] is not modelled.) *)
Definition useQuery (options : Obj) : UseQueryResult :=
  let enabled :=
    match options !! "enabled" with
    | Some (JBool false) => false
    | _ => true
    end in
  {| observed := options;
     isEnabled := enabled;
     fetches :=
       if enabled then
         match options !! "queryFn" with
         | Some (JQueryFn f) => [f]
         | _ => []
         end
       else [] |}.

Section WithKeys.

Variable keys : QueryKeys.

Definition usePlatformMetricsQuery (options : option Obj)
  : UseQueryResult :=
  let staleTime := coalesce (opt_get options "staleTime") (JNumber 120000) in
  useQuery
    (<["staleTime" := staleTime]>
       (spread options
          (<["queryFn" := JQueryFn fetchPlatformMetrics]>
             (<["queryKey" := platformMetricsQueryKey keys]> ∅)))).

Definition useMarketsQuery (options : option Obj) : UseQueryResult :=
  let staleTime := coalesce (opt_get options "staleTime") (JNumber 60000) in
  let gcTime := coalesce (opt_get options "gcTime") (JNumber (5 * 60000)) in
  useQuery
    (<["gcTime" := gcTime]>
       (<["staleTime" := staleTime]>
          (spread options
             (<["queryFn" := JQueryFn fetchMarkets]>
                (<["queryKey" := marketsQueryKey keys]> ∅))))).

Definition useMarketQuery (marketId : Ident) (options : option Obj)
  : UseQueryResult :=
  let enabled :=
    coalesce (opt_get options "enabled") (JBool (Boolean marketId)) in
  let staleTime := coalesce (opt_get options "staleTime") (JNumber 30000) in
  useQuery
    (<["staleTime" := staleTime]>
       (<["enabled" := enabled]>
          (spread options
             (<["queryFn" := JQueryFn (fetchMarketById marketId)]>
                (<["queryKey" := marketQueryKey keys marketId]> ∅))))).

Definition useMarketTradesQuery (marketId : Ident) (options : option Obj)
  : UseQueryResult :=
  let enabled :=
    coalesce (opt_get options "enabled") (JBool (Boolean marketId)) in
  useQuery
    (<["enabled" := enabled]>
       (spread options
          (<["queryFn" := JQueryFn (fetchTradesByMarket marketId)]>
             (<["queryKey" := marketTradesQueryKey keys marketId]> ∅)))).

Definition useUserTradesQuery (userId : Ident) (options : option Obj)
  : UseQueryResult :=
  let enabled :=
    coalesce (opt_get options "enabled") (JBool (Boolean userId)) in
  useQuery
    (<["enabled" := enabled]>
       (spread options
          (<["queryFn" := JQueryFn (fetchTradesByUser userId)]>
             (<["queryKey" := userTradesQueryKey keys userId]> ∅)))).

Definition useAccountQuery (accountId : Ident) (options : option Obj)
  : UseQueryResult :=
  let enabled :=
    coalesce (opt_get options "enabled") (JBool (Boolean accountId)) in
  useQuery
    (<["enabled" := enabled]>
       (spread options
          (<["queryFn" := JQueryFn (fetchAccountById accountId)]>
             (<["queryKey" := accountQueryKey keys accountId]> ∅)))).

(** The six hooks as one family. *)
Inductive Hook : Type :=
| PlatformMetrics
| Markets
| MarketById (marketId : Ident)
| MarketTrades (marketId : Ident)
| UserTrades (userId : Ident)
| AccountById (accountId : Ident).

Definition call (h : Hook) (options : option Obj) : UseQueryResult :=
  match h with
  | PlatformMetrics => usePlatformMetricsQuery options
  | Markets => useMarketsQuery options
  | MarketById id => useMarketQuery id options
  | MarketTrades id => useMarketTradesQuery id options
  | UserTrades id => useUserTradesQuery id options
  | AccountById id => useAccountQuery id options
  end.

End WithKeys.

(** The default policy as the specification lists it: platform metrics
    staleness 120 000 ms; market list staleness 60 000 ms and retention
    300 000 ms; single market staleness 30 000 ms, enabled only when the
    id is non-empty; trades and account enabled only when the id is
    non-empty.  [None]: the hook computes no fallback for the field. *)
Definition default_policy (h : Hook) (field : string) : option JsVal :=
  match h with
  | PlatformMetrics =>
      if String.eqb field "staleTime" then Some (JNumber 120000) else None
  | Markets =>
      if String.eqb field "staleTime" then Some (JNumber 60000)
      else if String.eqb field "gcTime" then Some (JNumber 300000)
      else None
  | MarketById id =>
      if String.eqb field "staleTime" then Some (JNumber 30000)
      else if String.eqb field "enabled" then Some (JBool (Boolean id))
      else None
  | MarketTrades id | UserTrades id | AccountById id =>
      if String.eqb field "enabled" then Some (JBool (Boolean id))
      else None
  end.

(** The property [field] of the object [options], when the caller passed
    an object that has it. *)
Definition supplied (options : option Obj) (field : string)
  : option JsVal :=
  match options with
  | Some o => o !! field
  | None => None
  end.

(** The hook passes [enabled: false], reports disabled, and nothing is
    fetched. *)
Definition disabled (r : UseQueryResult) : Prop :=
  observed r !! "enabled" = Some (JBool false)
  /\ isEnabled r = false
  /\ fetches r = [].

(** Cache keys used to run the hooks on concrete inputs. *)
Definition sample_keys : QueryKeys :=
  {| platformMetricsQueryKey := JString "platformMetrics";
     marketsQueryKey := JString "markets";
     marketQueryKey := fun _ => JString "market";
     marketTradesQueryKey := fun _ => JString "marketTrades";
     userTradesQueryKey := fun _ => JString "userTrades";
     accountQueryKey := fun _ => JString "account" |}.

End Hooks.

(* ===================================================================== *)
(** ** Concrete chains, used to run the facade *)
(* ===================================================================== *)

Definition sample_market : Market :=
  {| marketAddress := "0x00000000000000000000000000000000000f1004" |}.

Definition sample_token : Address :=
  "0x000000000000000000000000000000000000f70c".

Definition sample_owner : Address :=
  "0x00000000000000000000000000000000000a11ce".

(** A chain on which selling is open or not, the caller holds [balance]
    issuance tokens and has granted [allowance_] to the market, both
    previews quote [expectedOut], and every submission is mined. *)
Definition sample_config (connected sellOpen : bool)
    (balance allowance_ expectedOut : Z) : Config :=
  {| account_address := if connected then Some sample_owner else None;
     chain_read := fun A _ fn =>
       match fn in ReadFn T return Outcome T with
       | calculatePurchaseReturn _ => inr expectedOut
       | calculateSaleReturn _ => inr expectedOut
       | isBuyOpen => inr true
       | isSellOpen => inr sellOpen
       | getIssuanceToken => inr sample_token
       | balanceOf _ => inr balance
       | allowance _ _ => inr allowance_
       end;
     chain_write := fun _ _ => inr "0x7a" |}.

(** A wallet holding [sample_owner] on chain 1 that mines every
    submission, and a wallet with no account. *)
Definition sample_wallet (connected : bool) : Trade.WalletClient :=
  {| Trade.account :=
       if connected then Some {| Trade.viem_address := sample_owner |}
       else None;
     Trade.chain := Some 1;
     Trade.submit := fun _ => inr "0x7b" |}.

Definition sample_buy_trade : Trade.BuyTradeParams :=
  {| Trade.buy_floorAssetAddress := marketAddress sample_market;
     Trade.depositAmount := "1000";
     Trade.buy_minAmountOut := "990";
     Trade.buy_decimals := 2 |}.

Definition sample_sell_trade : Trade.SellTradeParams :=
  {| Trade.sell_floorAssetAddress := marketAddress sample_market;
     Trade.sellAmount := "25";
     Trade.sell_minAmountOut := "24";
     Trade.sell_decimals := 3 |}.

(** The same chain and wallet, on which every submission is rejected
    with [e]. *)
Definition rejecting (config : Config) (e : Exn) : Config :=
  {| account_address := account_address config;
     chain_read := chain_read config;
     chain_write := fun _ _ => inl e |}.

(** A buy whose minimum-out is not a decimal number. *)
Definition malformed_buy_trade : Trade.BuyTradeParams :=
  {| Trade.buy_floorAssetAddress := marketAddress sample_market;
     Trade.depositAmount := "1000";
     Trade.buy_minAmountOut := "9x0";
     Trade.buy_decimals := 2 |}.

(** The fetch that the [queryFn] of each hook performs, and the cache key
    each hook passes. *)
Definition hook_fetch (h : Hooks.Hook) : Hooks.Fetch :=
  match h with
  | Hooks.PlatformMetrics => Hooks.fetchPlatformMetrics
  | Hooks.Markets => Hooks.fetchMarkets
  | Hooks.MarketById id => Hooks.fetchMarketById id
  | Hooks.MarketTrades id => Hooks.fetchTradesByMarket id
  | Hooks.UserTrades id => Hooks.fetchTradesByUser id
  | Hooks.AccountById id => Hooks.fetchAccountById id
  end.

Definition hook_key (keys : Hooks.QueryKeys) (h : Hooks.Hook) : Hooks.JsVal :=
  match h with
  | Hooks.PlatformMetrics => Hooks.platformMetricsQueryKey keys
  | Hooks.Markets => Hooks.marketsQueryKey keys
  | Hooks.MarketById id => Hooks.marketQueryKey keys id
  | Hooks.MarketTrades id => Hooks.marketTradesQueryKey keys id
  | Hooks.UserTrades id => Hooks.userTradesQueryKey keys id
  | Hooks.AccountById id => Hooks.accountQueryKey keys id
  end.

(** What [useConfig()] raises when it is called outside a render. *)
Definition invalid_hook_call : Exn :=
  Error "Invalid hook call. Hooks can only be called inside of the body of a function component.".

(** [needle] occurs in [text]. *)
Definition contains (needle text : string) : Prop :=
  exists pre post : string, text = pre +:+ needle +:+ post.

(* ===================================================================== *)
(** ** [market.ts]: the read hooks of the facade *)
(* ===================================================================== *)

Inductive Abi : Type := Floor_v1 | ERC20Issuance_v1.

(** One element of an [args] array. *)
Inductive AbiArg : Type :=
| arg_uint (z : Z)
| arg_address (a : Address).

(** The object handed to wagmi's [useReadContract].  [rc_address] is
    [None] for [undefined]; [rc_args] is [None] when [args] is omitted or
    [undefined]; [rc_enabled] is [None] when no [query] is given. *)
Record UseReadContractParameters : Type := {
  rc_address : option Address;
  rc_abi : Abi;
  rc_functionName : string;
  rc_args : option (list AbiArg);
  rc_enabled : option bool
}.

(** [useBuyPreview(depositAmount)]. *)
Definition useBuyPreview (this : Market) (depositAmount : Z)
  : UseReadContractParameters :=
  {| rc_address := Some (marketAddress this);
     rc_abi := Floor_v1;
     rc_functionName := "calculatePurchaseReturn";
     rc_args := Some [arg_uint depositAmount];
     rc_enabled := Some (depositAmount >? BigInt 0) |}.

(** [useSellPreview(depositAmount)]. *)
Definition useSellPreview (this : Market) (depositAmount : Z)
  : UseReadContractParameters :=
  {| rc_address := Some (marketAddress this);
     rc_abi := Floor_v1;
     rc_functionName := "calculateSaleReturn";
     rc_args := Some [arg_uint depositAmount];
     rc_enabled := Some (depositAmount >? BigInt 0) |}.

(** [useIsSellOpen()]. *)
Definition useIsSellOpen (this : Market) : UseReadContractParameters :=
  {| rc_address := Some (marketAddress this);
     rc_abi := Floor_v1;
     rc_functionName := "isSellOpen";
     rc_args := None;
     rc_enabled := None |}.

(** [useIsBuyOpen()]. *)
Definition useIsBuyOpen (this : Market) : UseReadContractParameters :=
  {| rc_address := Some (marketAddress this);
     rc_abi := Floor_v1;
     rc_functionName := "isBuyOpen";
     rc_args := None;
     rc_enabled := None |}.

(** [useFTokenAddress()]. *)
Definition useFTokenAddress (this : Market) : UseReadContractParameters :=
  {| rc_address := Some (marketAddress this);
     rc_abi := Floor_v1;
     rc_functionName := "getIssuanceToken";
     rc_args := None;
     rc_enabled := None |}.

(** [useFTokenAllowance(owner)].  [data] is what wagmi currently holds
    for a read: the [data] field of the result of [useReadContract]. *)
Definition useFTokenAllowance
    (data : UseReadContractParameters -> option Address)
    (this : Market) (owner : option Address) : UseReadContractParameters :=
  let fTokenAddress := data (useFTokenAddress this) in
  {| rc_address := fTokenAddress;
     rc_abi := ERC20Issuance_v1;
     rc_functionName := "allowance";
     rc_args :=
       if truthy owner
       then Some [arg_address (the owner);
                  arg_address (marketAddress this)]
       else None;
     rc_enabled := Some (truthy fTokenAddress && truthy owner) |}.

(** [use-market.ts]: [useMarket(marketAddress)], a memoised
    [new Market(marketAddress)]. *)
Definition useMarket (marketAddress : Address) : Market :=
  {| marketAddress := marketAddress |}.

(** A contract call as the object literal that the source passes to
    [readContract] / [writeContract]: address, ABI, function name and
    arguments ([None] where the source gives no [args]). *)
Record Wire : Type := {
  wire_address : Address;
  wire_abi : Abi;
  wire_functionName : string;
  wire_args : option (list AbiArg)
}.

Definition wire_read {A : Type} (addr : Address) (fn : ReadFn A) : Wire :=
  match fn with
  | calculatePurchaseReturn d =>
      {| wire_address := addr; wire_abi := Floor_v1;
         wire_functionName := "calculatePurchaseReturn";
         wire_args := Some [arg_uint d] |}
  | calculateSaleReturn d =>
      {| wire_address := addr; wire_abi := Floor_v1;
         wire_functionName := "calculateSaleReturn";
         wire_args := Some [arg_uint d] |}
  | isBuyOpen =>
      {| wire_address := addr; wire_abi := Floor_v1;
         wire_functionName := "isBuyOpen"; wire_args := None |}
  | isSellOpen =>
      {| wire_address := addr; wire_abi := Floor_v1;
         wire_functionName := "isSellOpen"; wire_args := None |}
  | getIssuanceToken =>
      {| wire_address := addr; wire_abi := Floor_v1;
         wire_functionName := "getIssuanceToken"; wire_args := None |}
  | balanceOf owner =>
      {| wire_address := addr; wire_abi := ERC20Issuance_v1;
         wire_functionName := "balanceOf";
         wire_args := Some [arg_address owner] |}
  | allowance owner spender =>
      {| wire_address := addr; wire_abi := ERC20Issuance_v1;
         wire_functionName := "allowance";
         wire_args := Some [arg_address owner; arg_address spender] |}
  end.

Definition wire_write (addr : Address) (fn : WriteFn) : Wire :=
  match fn with
  | fn_buy d m =>
      {| wire_address := addr; wire_abi := Floor_v1;
         wire_functionName := "buy";
         wire_args := Some [arg_uint d; arg_uint m] |}
  | fn_sell d m =>
      {| wire_address := addr; wire_abi := Floor_v1;
         wire_functionName := "sell";
         wire_args := Some [arg_uint d; arg_uint m] |}
  | fn_approve spender a =>
      {| wire_address := addr; wire_abi := ERC20Issuance_v1;
         wire_functionName := "approve";
         wire_args := Some [arg_address spender; arg_uint a] |}
  end.

Definition wire (c : Call) : Wire :=
  match c with
  | Read addr fn => wire_read addr fn
  | Write addr fn => wire_write addr fn
  end.

(** The call a hook asks for, once its address is known. *)
Definition rc_wire (p : UseReadContractParameters) : option Wire :=
  match rc_address p with
  | Some addr =>
      Some {| wire_address := addr; wire_abi := rc_abi p;
              wire_functionName := rc_functionName p;
              wire_args := rc_args p |}
  | None => None
  end.

Definition is_error_line (l : ConsoleLine) : bool :=
  match l with
  | console_error _ _ => true
  | console_log _ => false
  end.

(** The [console.error] lines a computation writes. *)
Definition errors_logged {A : Type} (m : Async A) : list ConsoleLine :=
  List.filter is_error_line (printed m).

(* ===================================================================== *)
(** ** The quote helpers of the trade module *)
(* ===================================================================== *)

Module Quote.

(** viem's public client, as far as [readContract] goes. *)
Record PublicClient : Type := {
  answer : forall A : Type, Address -> ReadFn A -> Outcome A
}.

Definition public_readContract {A : Type} (publicClient : PublicClient)
    (addr : Address) (fn : ReadFn A) : Async A :=
  log_call (Read addr fn);;
  settle (answer publicClient A addr fn).

Section Quotes.

(** viem's [parseUnits(value, decimals)] and [formatUnits(value,
    decimals)]. *)
Variable parseUnits : string -> Z -> Outcome Z.
Variable formatUnits : Z -> Z -> string.

Definition calculateBuyReturn (publicClient : PublicClient)
    (floorAssetAddress : Address) (depositAmount : string) (decimals : Z)
  : Async string :=
  depositAmountWei ← settle (parseUnits depositAmount decimals);
  result ← public_readContract publicClient floorAssetAddress
             (calculatePurchaseReturn depositAmountWei);
  mret (formatUnits result decimals).

Definition calculateSellReturn (publicClient : PublicClient)
    (floorAssetAddress : Address) (sellAmount : string) (decimals : Z)
  : Async string :=
  sellAmountWei ← settle (parseUnits sellAmount decimals);
  result ← public_readContract publicClient floorAssetAddress
             (calculateSaleReturn sellAmountWei);
  mret (formatUnits result decimals).

End Quotes.

(** An instance of [formatUnits] on multiples of [10 ^ decimals]: the
    whole part in decimal digits.  It is used to run the helpers on
    concrete inputs. *)
Definition formatUnits_whole (value decimals : Z) : string :=
  toString (value ÷ 10 ^ decimals).

End Quote.

(** A public client that quotes [expectedOut] for every preview. *)
Definition sample_public (expectedOut : Z) : Quote.PublicClient :=
  {| Quote.answer := fun A addr fn =>
       chain_read (sample_config true true 0 0 expectedOut) A addr fn |}.

(** wagmi holding the issuance-token address [token] for every read. *)
Definition sample_data (token : option Address)
  : UseReadContractParameters -> option Address :=
  fun _ => token.

(* ===================================================================== *)
(** ** Running the facade: symbolic evaluation *)
(* ===================================================================== *)

(** Unfold one layer of the monad and of the wagmi primitives. *)
Ltac async_unfold :=
  unfold result, issued, printed, submitted, run,
    readContract, writeContract, throw_if, throw, settle,
    log_call, log_console, try_catch, getAccount, no_journal, BigInt,
    mbind, mret, Async_bind, Async_ret in *; cbn in *.

(** Preconditions under which [buy] reaches its submission with the quote
    [expectedOut]. *)
Definition buy_quoted (config : Config) (this : Market)
    (depositAmount expectedOut : Z) : Prop :=
  truthy (account_address config) = true /\
  0 < depositAmount /\
  chain_read config Z (marketAddress this)
    (calculatePurchaseReturn depositAmount) = inr expectedOut.

(** Preconditions under which [sell] reaches its submission with the quote
    [expectedOut]. *)
Definition sell_quoted (config : Config) (this : Market)
    (depositAmount expectedOut : Z) : Prop :=
  truthy (account_address config) = true /\
  0 < depositAmount /\
  chain_read config bool (marketAddress this) isSellOpen = inr true /\
  exists (fTokenAddress : Address) (balance allowance_ : Z),
    chain_read config Address (marketAddress this) getIssuanceToken
      = inr fTokenAddress /\
    chain_read config Z fTokenAddress
      (balanceOf (the (account_address config))) = inr balance /\
    depositAmount <= balance /\
    chain_read config Z fTokenAddress
      (allowance (the (account_address config)) (marketAddress this))
      = inr allowance_ /\
    depositAmount <= allowance_ /\
    chain_read config Z (marketAddress this)
      (calculateSaleReturn depositAmount) = inr expectedOut.

Lemma buy_submits config this depositAmount slippageBps expectedOut :
  buy_quoted config this depositAmount expectedOut ->
  submitted (buy config this
    {| buy_depositAmount := depositAmount; buy_slippageBps := slippageBps |})
  = [Write (marketAddress this)
       (fn_buy depositAmount
          (minAmountOut expectedOut (default 50 slippageBps)))].
Proof.
  intros (Hacc & Hpos & Hq).
  unfold buy. async_unfold.
  rewrite Hacc. cbn.
  destruct (Z.leb_spec depositAmount 0) as [Hle | _]; [lia |].
  cbn. rewrite Hq. cbn.
  destruct (chain_write config _ _); reflexivity.
Qed.

Lemma sell_submits config this depositAmount slippageBps expectedOut :
  sell_quoted config this depositAmount expectedOut ->
  submitted (sell config this
    {| sell_depositAmount := depositAmount; sell_slippageBps := slippageBps |})
  = [Write (marketAddress this)
       (fn_sell depositAmount
          (minAmountOut expectedOut (default 50 slippageBps)))].
Proof.
  intros (Hacc & Hpos & Hopen & tok & bal & alw & Htok & Hbal & Hbal_ok
          & Halw & Halw_ok & Hq).
  unfold sell. async_unfold.
  destruct (account_address config) as [owner |]; [| discriminate].
  cbn in *. rewrite Hacc. cbn.
  destruct (Z.leb_spec depositAmount 0) as [Hle | _]; [lia |].
  cbn. rewrite Hopen. cbn. rewrite Htok. cbn. rewrite Hbal. cbn.
  destruct (Z.ltb_spec bal depositAmount) as [Hlt | _]; [lia |].
  cbn. rewrite Halw. cbn.
  destruct (Z.ltb_spec alw depositAmount) as [Hlt | _]; [lia |].
  cbn. rewrite Hq. cbn.
  destruct (chain_write config _ _); reflexivity.
Qed.

(* ===================================================================== *)
(** ** Slippage arithmetic *)
(* ===================================================================== *)

(** On a non-negative quote and a tolerance of at most 10000 bps the
    truncating BigInt division is the floor division. *)
Lemma minAmountOut_floor expectedOut slippageBps :
  0 <= expectedOut -> slippageBps <= 10000 ->
  minAmountOut expectedOut slippageBps
  = expectedOut * (10000 - slippageBps) / 10000.
Proof.
  intros He Hs. unfold minAmountOut, BigInt.
  apply Z.quot_div_nonneg; [| lia].
  apply Z.mul_nonneg_nonneg; lia.
Qed.

Lemma minAmountOut_antitone expectedOut s1 s2 :
  0 <= expectedOut -> s1 <= s2 -> s2 <= 10000 ->
  minAmountOut expectedOut s2 <= minAmountOut expectedOut s1.
Proof.
  intros He H12 H2.
  rewrite !minAmountOut_floor by lia.
  apply Z.div_le_mono; [lia |].
  apply Z.mul_le_mono_nonneg_l; lia.
Qed.

Lemma minAmountOut_bounds expectedOut slippageBps :
  0 <= expectedOut -> 0 <= slippageBps <= 10000 ->
  0 <= minAmountOut expectedOut slippageBps <= expectedOut.
Proof.
  intros He Hs.
  rewrite minAmountOut_floor by lia.
  split.
  - apply Z.div_pos; [| lia]. apply Z.mul_nonneg_nonneg; lia.
  - apply Z.div_le_upper_bound; [lia |]. nia.
Qed.

(** C1 (as amended).  For every quote [expectedOut >= 0] returned by the
    preview read and every integer [slippageBps <= 10000] (default 50) in
    the range where [10000 - slippageBps] is exact, [buy] and [sell] submit
    exactly one transaction, whose minimum-out is
    [floor (expectedOut * (10000 - slippageBps) / 10000)]. *)
Theorem submitted_minimum_is_floor
    config this depositAmount slippageBps expectedOut :
  0 <= expectedOut ->
  exact_bps (default 50 slippageBps) ->
  default 50 slippageBps <= 10000 ->
  (buy_quoted config this depositAmount expectedOut ->
   submitted (buy config this
     {| buy_depositAmount := depositAmount;
        buy_slippageBps := slippageBps |})
   = [Write (marketAddress this)
        (fn_buy depositAmount
           (expectedOut * (10000 - default 50 slippageBps) / 10000))])
  /\
  (sell_quoted config this depositAmount expectedOut ->
   submitted (sell config this
     {| sell_depositAmount := depositAmount;
        sell_slippageBps := slippageBps |})
   = [Write (marketAddress this)
        (fn_sell depositAmount
           (expectedOut * (10000 - default 50 slippageBps) / 10000))]).
Proof.
  intros He _ Hs. split; intros Hq.
  - rewrite (buy_submits _ _ _ _ _ Hq), minAmountOut_floor by assumption.
    reflexivity.
  - rewrite (sell_submits _ _ _ _ _ Hq), minAmountOut_floor by assumption.
    reflexivity.
Qed.

Lemma sample_buy_quoted balance allowance_ expectedOut :
  buy_quoted (sample_config true true balance allowance_ expectedOut)
    sample_market 1000 expectedOut.
Proof. repeat split. Defined.

Lemma sample_sell_quoted expectedOut :
  sell_quoted (sample_config true true 1000 1000 expectedOut)
    sample_market 1000 expectedOut.
Proof.
  split; [reflexivity |]. split; [reflexivity |]. split; [reflexivity |].
  exists sample_token, 1000, 1000.
  repeat split; discriminate.
Defined.

(** The scenario of the specification: quote 2000, default tolerance 50
    bps, minimum-out 1990, on both paths. *)
Lemma submitted_minimum_is_floor_witness :
  submitted (buy (sample_config true true 1000 1000 2000) sample_market
    {| buy_depositAmount := 1000; buy_slippageBps := None |})
  = [Write (marketAddress sample_market) (fn_buy 1000 1990)]
  /\
  submitted (sell (sample_config true true 1000 1000 2000) sample_market
    {| sell_depositAmount := 1000; sell_slippageBps := None |})
  = [Write (marketAddress sample_market) (fn_sell 1000 1990)].
Proof.
  assert (H0 : 0 <= 2000) by (intro H; discriminate H).
  assert (H1 : exact_bps (default 50 None))
    by (split; intro H; discriminate H).
  assert (H2 : default 50 None <= 10000) by (intro H; discriminate H).
  destruct (submitted_minimum_is_floor
              (sample_config true true 1000 1000 2000) sample_market
              1000 None 2000 H0 H1 H2) as [Hbuy Hsell].
  split.
  - exact (Hbuy (sample_buy_quoted 1000 1000 2000)).
  - exact (Hsell (sample_sell_quoted 2000)).
Defined.

(** C1 (as stated) fails above 10000 bps: with quote 1 and tolerance
    10001 the code submits [(1 * -1) / 10000 = 0] (truncation toward
    zero), whereas [floor (1 * (10000 - 10001) / 10000) = -1]. *)
Lemma slippage_above_10000_is_not_floor :
  buy_quoted (sample_config true true 1000 1000 1) sample_market 1000 1
  /\ exact_bps 10001
  /\ submitted (buy (sample_config true true 1000 1000 1) sample_market
       {| buy_depositAmount := 1000; buy_slippageBps := Some 10001 |})
     = [Write (marketAddress sample_market) (fn_buy 1000 0)]
  /\ 1 * (10000 - 10001) / 10000 = -1
  /\ submitted (buy (sample_config true true 1000 1000 1) sample_market
       {| buy_depositAmount := 1000; buy_slippageBps := Some 10001 |})
     <> [Write (marketAddress sample_market)
           (fn_buy 1000 (1 * (10000 - 10001) / 10000))].
Proof.
  split; [apply sample_buy_quoted |].
  split; [unfold exact_bps; lia |].
  split; [reflexivity |].
  split; [reflexivity |].
  vm_compute. intros H. inversion H.
Qed.

(** C7.  For a fixed quote [expectedOut >= 0], the minimum-out submitted by
    [buy] and by [sell] is non-increasing in [slippageBps] over
    [0, 10000]. *)
Theorem submitted_minimum_antitone
    config this depositAmount s1 s2 expectedOut :
  0 <= expectedOut ->
  0 <= s1 -> s1 <= s2 -> s2 <= 10000 ->
  minAmountOut expectedOut s2 <= minAmountOut expectedOut s1
  /\
  (buy_quoted config this depositAmount expectedOut ->
   submitted (buy config this
     {| buy_depositAmount := depositAmount; buy_slippageBps := Some s1 |})
   = [Write (marketAddress this)
        (fn_buy depositAmount (minAmountOut expectedOut s1))]
   /\
   submitted (buy config this
     {| buy_depositAmount := depositAmount; buy_slippageBps := Some s2 |})
   = [Write (marketAddress this)
        (fn_buy depositAmount (minAmountOut expectedOut s2))])
  /\
  (sell_quoted config this depositAmount expectedOut ->
   submitted (sell config this
     {| sell_depositAmount := depositAmount; sell_slippageBps := Some s1 |})
   = [Write (marketAddress this)
        (fn_sell depositAmount (minAmountOut expectedOut s1))]
   /\
   submitted (sell config this
     {| sell_depositAmount := depositAmount; sell_slippageBps := Some s2 |})
   = [Write (marketAddress this)
        (fn_sell depositAmount (minAmountOut expectedOut s2))]).
Proof.
  intros He H1 H12 H2.
  split; [apply minAmountOut_antitone; assumption |].
  split; intros Hq; split.
  - apply (buy_submits _ _ _ (Some s1) _ Hq).
  - apply (buy_submits _ _ _ (Some s2) _ Hq).
  - apply (sell_submits _ _ _ (Some s1) _ Hq).
  - apply (sell_submits _ _ _ (Some s2) _ Hq).
Qed.

(** Tolerances 50 and 100 bps on a quote of 2000: 1980 <= 1990. *)
Lemma submitted_minimum_antitone_witness :
  minAmountOut 2000 100 <= minAmountOut 2000 50
  /\ submitted (buy (sample_config true true 1000 1000 2000) sample_market
       {| buy_depositAmount := 1000; buy_slippageBps := Some 100 |})
     = [Write (marketAddress sample_market) (fn_buy 1000 1980)]
  /\ submitted (sell (sample_config true true 1000 1000 2000) sample_market
       {| sell_depositAmount := 1000; sell_slippageBps := Some 50 |})
     = [Write (marketAddress sample_market) (fn_sell 1000 1990)].
Proof.
  assert (H0 : 0 <= 2000) by (intro H; discriminate H).
  assert (H1 : 0 <= 50) by (intro H; discriminate H).
  assert (H2 : 50 <= 100) by (intro H; discriminate H).
  assert (H3 : 100 <= 10000) by (intro H; discriminate H).
  destruct (submitted_minimum_antitone
              (sample_config true true 1000 1000 2000) sample_market
              1000 50 100 2000 H0 H1 H2 H3) as (Hle & Hbuy & Hsell).
  split; [exact Hle |]. split.
  - exact (proj2 (Hbuy (sample_buy_quoted 1000 1000 2000))).
  - exact (proj1 (Hsell (sample_sell_quoted 2000))).
Defined.

(** C9.  For [slippageBps] in [0, 10000] and a quote [expectedOut >= 0],
    the minimum-out submitted by [buy] and by [sell] lies between 0 and
    the quote. *)
Theorem submitted_minimum_bounds
    config this depositAmount slippageBps expectedOut :
  0 <= expectedOut ->
  0 <= default 50 slippageBps <= 10000 ->
  0 <= minAmountOut expectedOut (default 50 slippageBps) <= expectedOut
  /\
  (buy_quoted config this depositAmount expectedOut ->
   submitted (buy config this
     {| buy_depositAmount := depositAmount;
        buy_slippageBps := slippageBps |})
   = [Write (marketAddress this)
        (fn_buy depositAmount
           (minAmountOut expectedOut (default 50 slippageBps)))])
  /\
  (sell_quoted config this depositAmount expectedOut ->
   submitted (sell config this
     {| sell_depositAmount := depositAmount;
        sell_slippageBps := slippageBps |})
   = [Write (marketAddress this)
        (fn_sell depositAmount
           (minAmountOut expectedOut (default 50 slippageBps)))]).
Proof.
  intros He Hs.
  split; [apply minAmountOut_bounds; assumption |].
  split; intros Hq.
  - apply (buy_submits _ _ _ _ _ Hq).
  - apply (sell_submits _ _ _ _ _ Hq).
Qed.

(** Full tolerance: 10000 bps on a quote of 2000 submits a minimum of 0. *)
Lemma submitted_minimum_bounds_witness :
  0 <= minAmountOut 2000 10000 <= 2000
  /\ submitted (buy (sample_config true true 1000 1000 2000) sample_market
       {| buy_depositAmount := 1000; buy_slippageBps := Some 10000 |})
     = [Write (marketAddress sample_market) (fn_buy 1000 0)]
  /\ submitted (sell (sample_config true true 1000 1000 2000) sample_market
       {| sell_depositAmount := 1000; sell_slippageBps := Some 10000 |})
     = [Write (marketAddress sample_market) (fn_sell 1000 0)].
Proof.
  assert (H0 : 0 <= 2000) by (intro H; discriminate H).
  assert (H1 : 0 <= default 50 (Some 10000) <= 10000)
    by (split; intro H; discriminate H).
  destruct (submitted_minimum_bounds
              (sample_config true true 1000 1000 2000) sample_market
              1000 (Some 10000) 2000 H0 H1) as (Hb & Hbuy & Hsell).
  split; [exact Hb |]. split.
  - exact (Hbuy (sample_buy_quoted 1000 1000 2000)).
  - exact (Hsell (sample_sell_quoted 2000)).
Defined.

(* ===================================================================== *)
(** ** Precondition failures of the facade *)
(* ===================================================================== *)

Lemma append_assoc (a b c : string) : (a +:+ b) +:+ c = a +:+ b +:+ c.
Proof.
  induction a as [| x a IH]; [reflexivity |].
  change (String x ((a +:+ b) +:+ c) = String x (a +:+ b +:+ c)).
  f_equal. exact IH.
Qed.

Lemma append_empty_r (a : string) : a +:+ "" = a.
Proof.
  induction a as [| x a IH]; [reflexivity |].
  change (String x (a +:+ "") = String x a).
  f_equal. exact IH.
Qed.

Lemma insufficient_allowance_names_token depositAmount allowance_ token :
  contains token (insufficient_allowance depositAmount allowance_ token).
Proof.
  exists ("Insufficient fToken allowance. Please approve the Floor contract to spend your fTokens first."
          +:+ newline +:+ newline +:+ "Required: " +:+ toString depositAmount
          +:+ newline +:+ "Current: " +:+ toString allowance_
          +:+ newline +:+ newline +:+ "Approve fToken at: "), "".
  unfold insufficient_allowance.
  rewrite append_empty_r, !append_assoc. reflexivity.
Qed.

(** C2.  When [sell] reads a balance below [depositAmount], it fails with
    the insufficient-balance error after exactly three reads: the allowance
    is never read and nothing is submitted. *)
Theorem sell_insufficient_balance
    config this depositAmount slippageBps fTokenAddress balance :
  truthy (account_address config) = true ->
  0 < depositAmount ->
  chain_read config bool (marketAddress this) isSellOpen = inr true ->
  chain_read config Address (marketAddress this) getIssuanceToken
    = inr fTokenAddress ->
  chain_read config Z fTokenAddress
    (balanceOf (the (account_address config))) = inr balance ->
  balance < depositAmount ->
  let m := sell config this
             {| sell_depositAmount := depositAmount;
                sell_slippageBps := slippageBps |} in
  result m = inl (Error (insufficient_balance balance depositAmount))
  /\ issued m
     = [Read (marketAddress this) isSellOpen;
        Read (marketAddress this) getIssuanceToken;
        Read fTokenAddress (balanceOf (the (account_address config)))]
  /\ existsb is_allowance_read (issued m) = false
  /\ submitted m = [].
Proof.
  intros Hacc Hpos Hopen Htok Hbal Hlt m. subst m.
  unfold sell. async_unfold.
  destruct (account_address config) as [owner |]; [| discriminate].
  cbn in *. rewrite Hacc. cbn.
  destruct (Z.leb_spec depositAmount 0) as [Hle | _]; [lia |].
  cbn. rewrite Hopen. cbn. rewrite Htok. cbn. rewrite Hbal. cbn.
  destruct (Z.ltb_spec balance depositAmount) as [_ | Hge]; [| lia].
  cbn. repeat split; reflexivity.
Qed.

(** The scenario of the specification: balance 500, deposit 1000. *)
Lemma sell_insufficient_balance_witness :
  let m := sell (sample_config true true 500 0 2000) sample_market
             {| sell_depositAmount := 1000; sell_slippageBps := None |} in
  result m
  = inl (Error
      "Insufficient fToken balance. You have 500 but trying to sell 1000")
  /\ issued m
     = [Read (marketAddress sample_market) isSellOpen;
        Read (marketAddress sample_market) getIssuanceToken;
        Read sample_token (balanceOf sample_owner)]
  /\ existsb is_allowance_read (issued m) = false
  /\ submitted m = [].
Proof.
  apply (sell_insufficient_balance
           (sample_config true true 500 0 2000) sample_market
           1000 None sample_token 500);
    reflexivity.
Defined.

(** C3.  When the balance covers [depositAmount] but the allowance read is
    below it, [sell] fails with the insufficient-allowance error, whose
    message contains the issuance-token address, and submits nothing. *)
Theorem sell_insufficient_allowance
    config this depositAmount slippageBps fTokenAddress balance allowance_ :
  truthy (account_address config) = true ->
  0 < depositAmount ->
  chain_read config bool (marketAddress this) isSellOpen = inr true ->
  chain_read config Address (marketAddress this) getIssuanceToken
    = inr fTokenAddress ->
  chain_read config Z fTokenAddress
    (balanceOf (the (account_address config))) = inr balance ->
  depositAmount <= balance ->
  chain_read config Z fTokenAddress
    (allowance (the (account_address config)) (marketAddress this))
    = inr allowance_ ->
  allowance_ < depositAmount ->
  let m := sell config this
             {| sell_depositAmount := depositAmount;
                sell_slippageBps := slippageBps |} in
  (exists e : Exn,
      result m = inl e
      /\ e = Error (insufficient_allowance depositAmount allowance_
                      fTokenAddress)
      /\ contains fTokenAddress (message e))
  /\ issued m
     = [Read (marketAddress this) isSellOpen;
        Read (marketAddress this) getIssuanceToken;
        Read fTokenAddress (balanceOf (the (account_address config)));
        Read fTokenAddress
          (allowance (the (account_address config)) (marketAddress this))]
  /\ submitted m = [].
Proof.
  intros Hacc Hpos Hopen Htok Hbal Hbal_ok Halw Hlt m. subst m.
  unfold sell. async_unfold.
  destruct (account_address config) as [owner |]; [| discriminate].
  cbn in *. rewrite Hacc. cbn.
  destruct (Z.leb_spec depositAmount 0) as [Hle | _]; [lia |].
  cbn. rewrite Hopen. cbn. rewrite Htok. cbn. rewrite Hbal. cbn.
  destruct (Z.ltb_spec balance depositAmount) as [Hbad | _]; [lia |].
  cbn. rewrite Halw. cbn.
  destruct (Z.ltb_spec allowance_ depositAmount) as [_ | Hge]; [| lia].
  cbn. split; [| split; reflexivity].
  eexists. split; [reflexivity |]. split; [reflexivity |].
  apply insufficient_allowance_names_token.
Qed.

(** Balance 1000, allowance 400, deposit 1000. *)
Lemma sell_insufficient_allowance_witness :
  let m := sell (sample_config true true 1000 400 2000) sample_market
             {| sell_depositAmount := 1000; sell_slippageBps := None |} in
  (exists e : Exn,
      result m = inl e
      /\ e = Error (insufficient_allowance 1000 400 sample_token)
      /\ contains sample_token (message e))
  /\ issued m
     = [Read (marketAddress sample_market) isSellOpen;
        Read (marketAddress sample_market) getIssuanceToken;
        Read sample_token (balanceOf sample_owner);
        Read sample_token
          (allowance sample_owner (marketAddress sample_market))]
  /\ submitted m = [].
Proof.
  apply (sell_insufficient_allowance
           (sample_config true true 1000 400 2000) sample_market
           1000 None sample_token 1000 400);
    try reflexivity; intro H; discriminate H.
Defined.

(** C4.  With no active account or a non-positive amount, each of [buy],
    [sell] and [approve] fails with its precondition error and issues no
    contract call, read or write. *)
Theorem mutations_check_preconditions_first
    config this amount_ slippageBps :
  truthy (account_address config) = false \/ amount_ <= 0 ->
  let b := buy config this
             {| buy_depositAmount := amount_;
                buy_slippageBps := slippageBps |} in
  let s := sell config this
             {| sell_depositAmount := amount_;
                sell_slippageBps := slippageBps |} in
  let a := approve config this {| amount := amount_ |} in
  (result b = inl (Error (if truthy (account_address config)
                          then invalid_amount else wallet_not_connected))
   /\ issued b = [])
  /\ (result s = inl (Error (if truthy (account_address config)
                             then invalid_amount else wallet_not_connected))
      /\ issued s = [])
  /\ (result a = inl (Error (if truthy (account_address config)
                             then invalid_approval_amount
                             else wallet_not_connected))
      /\ issued a = []).
Proof.
  intros Hpre b s a. subst b s a.
  unfold buy, sell, approve. async_unfold.
  destruct (truthy (account_address config)) eqn:Hacc; cbn.
  - destruct Hpre as [Hfalse | Hle]; [discriminate |].
    destruct (Z.leb_spec amount_ 0) as [_ | Hgt]; [| lia].
    cbn. repeat split; reflexivity.
  - repeat split; reflexivity.
Qed.

(** A connected wallet with amount 0, and a disconnected wallet with
    amount 1000. *)
Lemma mutations_check_preconditions_first_witness :
  (result (buy (sample_config true true 1000 1000 2000) sample_market
             {| buy_depositAmount := 0; buy_slippageBps := None |})
   = inl (Error invalid_amount)
   /\ issued (buy (sample_config true true 1000 1000 2000) sample_market
                {| buy_depositAmount := 0; buy_slippageBps := None |}) = [])
  /\
  (result (approve (sample_config false true 1000 1000 2000) sample_market
             {| amount := 1000 |})
   = inl (Error wallet_not_connected)
   /\ issued (approve (sample_config false true 1000 1000 2000) sample_market
                {| amount := 1000 |}) = []).
Proof.
  split.
  - assert (H : truthy (account_address
                          (sample_config true true 1000 1000 2000)) = false
                \/ 0 <= 0) by (right; intro H; discriminate H).
    exact (proj1 (mutations_check_preconditions_first
                    (sample_config true true 1000 1000 2000) sample_market
                    0 None H)).
  - assert (H : truthy (account_address
                          (sample_config false true 1000 1000 2000)) = false
                \/ 1000 <= 0) by (left; reflexivity).
    exact (proj2 (proj2 (mutations_check_preconditions_first
                           (sample_config false true 1000 1000 2000)
                           sample_market 1000 None H))).
Defined.




(** The progress lines of an approval that goes through. *)
Example approveFToken_negative_disconnected :
  printed (approveFToken (inr (sample_config false true 0 0 0))
             sample_market (-5))
  = [console_log
       "Approving fToken 0x000000000000000000000000000000000000f70c for amount -5...";
     console_log "✅ fToken approval tx: 0x7a"].
Proof. reflexivity. Qed.

(* ===================================================================== *)
(** ** The trade executor *)
(* ===================================================================== *)

(** C5.  Without an active account both executors fail at once, with no
    contract call.  Otherwise, the amount and the minimum-out being
    converted by [parseUnits] at the supplied precision, each executor
    issues exactly one call, to [buy] (resp. [sell]) of the market with
    the two converted integers, and returns the submission's hash with the
    direction [buy] (resp. [sell]); a failed submission propagates. *)
Theorem executor_contract
    (parseUnits : string -> Z -> Outcome Z)
    (walletClient : Trade.WalletClient)
    (bp : Trade.BuyTradeParams) (sp : Trade.SellTradeParams) :
  (Trade.account walletClient = None ->
   (result (Trade.executeBuyTrade parseUnits walletClient bp)
    = inl (Error Trade.account_not_available)
    /\ issued (Trade.executeBuyTrade parseUnits walletClient bp) = [])
   /\
   (result (Trade.executeSellTrade parseUnits walletClient sp)
    = inl (Error Trade.account_not_available)
    /\ issued (Trade.executeSellTrade parseUnits walletClient sp) = []))
  /\
  (forall (account_ : Trade.ViemAccount) (amountWei minWei : Z),
     Trade.account walletClient = Some account_ ->
     parseUnits (Trade.depositAmount bp) (Trade.buy_decimals bp)
       = inr amountWei ->
     parseUnits (Trade.buy_minAmountOut bp) (Trade.buy_decimals bp)
       = inr minWei ->
     issued (Trade.executeBuyTrade parseUnits walletClient bp)
     = [Write (Trade.buy_floorAssetAddress bp) (fn_buy amountWei minWei)]
     /\
     result (Trade.executeBuyTrade parseUnits walletClient bp)
     = match Trade.submit walletClient
               {| Trade.req_address := Trade.buy_floorAssetAddress bp;
                  Trade.req_fn := fn_buy amountWei minWei;
                  Trade.req_chain := Trade.chain walletClient;
                  Trade.req_account := account_ |} with
       | inl e => inl e
       | inr h => inr {| Trade.hash := h; Trade.direction := Trade.dir_buy |}
       end)
  /\
  (forall (account_ : Trade.ViemAccount) (amountWei minWei : Z),
     Trade.account walletClient = Some account_ ->
     parseUnits (Trade.sellAmount sp) (Trade.sell_decimals sp)
       = inr amountWei ->
     parseUnits (Trade.sell_minAmountOut sp) (Trade.sell_decimals sp)
       = inr minWei ->
     issued (Trade.executeSellTrade parseUnits walletClient sp)
     = [Write (Trade.sell_floorAssetAddress sp) (fn_sell amountWei minWei)]
     /\
     result (Trade.executeSellTrade parseUnits walletClient sp)
     = match Trade.submit walletClient
               {| Trade.req_address := Trade.sell_floorAssetAddress sp;
                  Trade.req_fn := fn_sell amountWei minWei;
                  Trade.req_chain := Trade.chain walletClient;
                  Trade.req_account := account_ |} with
       | inl e => inl e
       | inr h => inr {| Trade.hash := h; Trade.direction := Trade.dir_sell |}
       end).
Proof.
  unfold Trade.executeBuyTrade, Trade.executeSellTrade,
    Trade.wallet_writeContract.
  split; [| split].
  - intros Hnone. rewrite Hnone. async_unfold. repeat split; reflexivity.
  - intros account_ amountWei minWei Hacc Ha Hm.
    rewrite Hacc. async_unfold. rewrite Ha. cbn. rewrite Hm. cbn.
    destruct (Trade.submit walletClient _); cbn; split; reflexivity.
  - intros account_ amountWei minWei Hacc Ha Hm.
    rewrite Hacc. async_unfold. rewrite Ha. cbn. rewrite Hm. cbn.
    destruct (Trade.submit walletClient _); cbn; split; reflexivity.
Qed.

(** A disconnected wallet; then a buy of "1000" for at least "990" at
    precision 2 and a sell of "25" for at least "24" at precision 3. *)
Lemma executor_contract_witness :
  (result (Trade.executeBuyTrade Trade.parseUnits_whole
             (sample_wallet false) sample_buy_trade)
   = inl (Error Trade.account_not_available)
   /\ issued (Trade.executeBuyTrade Trade.parseUnits_whole
                (sample_wallet false) sample_buy_trade) = [])
  /\
  (issued (Trade.executeBuyTrade Trade.parseUnits_whole
             (sample_wallet true) sample_buy_trade)
   = [Write (marketAddress sample_market) (fn_buy 100000 99000)]
   /\ result (Trade.executeBuyTrade Trade.parseUnits_whole
                (sample_wallet true) sample_buy_trade)
      = inr {| Trade.hash := "0x7b"; Trade.direction := Trade.dir_buy |})
  /\
  (issued (Trade.executeSellTrade Trade.parseUnits_whole
             (sample_wallet true) sample_sell_trade)
   = [Write (marketAddress sample_market) (fn_sell 25000 24000)]
   /\ result (Trade.executeSellTrade Trade.parseUnits_whole
                (sample_wallet true) sample_sell_trade)
      = inr {| Trade.hash := "0x7b"; Trade.direction := Trade.dir_sell |}).
Proof.
  split; [| split].
  - exact (proj1 (proj1 (executor_contract Trade.parseUnits_whole
             (sample_wallet false) sample_buy_trade sample_sell_trade)
             eq_refl)).
  - exact (proj1 (proj2 (executor_contract Trade.parseUnits_whole
             (sample_wallet true) sample_buy_trade sample_sell_trade))
             {| Trade.viem_address := sample_owner |} 100000 99000
             eq_refl eq_refl eq_refl).
  - exact (proj2 (proj2 (executor_contract Trade.parseUnits_whole
             (sample_wallet true) sample_buy_trade sample_sell_trade))
             {| Trade.viem_address := sample_owner |} 25000 24000
             eq_refl eq_refl eq_refl).
Defined.

(* ===================================================================== *)
(** ** The data-fetch hooks *)
(* ===================================================================== *)

Section HookPolicy.

Import Hooks.

Variable keys : QueryKeys.

Lemma base_lookup (k f : JsVal) (field : string) :
  field <> "queryKey" -> field <> "queryFn" ->
  (<["queryFn" := f]> (<["queryKey" := k]> (∅ : gmap string JsVal)))
    !! field = None.
Proof.
  intros Hk Hf.
  rewrite lookup_insert_ne by congruence.
  rewrite lookup_insert_ne by congruence.
  apply lookup_empty.
Qed.

Lemma spread_lookup (options : option (gmap string JsVal))
    (base : gmap string JsVal) (field : string) :
  base !! field = None ->
  spread options base !! field = supplied options field.
Proof.
  intros Hbase. destruct options as [o |]; cbn; [| exact Hbase].
  now apply lookup_union_l.
Qed.

Lemma spread_base_lookup options (k f : JsVal) (field : string) :
  field <> "queryKey" -> field <> "queryFn" ->
  spread options (<["queryFn" := f]> (<["queryKey" := k]> ∅)) !! field
  = supplied options field.
Proof. intros Hk Hf. apply spread_lookup, base_lookup; assumption. Qed.

Lemma opt_get_supplied options field :
  opt_get options field = default JUndefined (supplied options field).
Proof. destruct options; reflexivity. Qed.

(** Every policy field of the object a hook hands to the query layer:
    the caller's value unless nullish, else the fallback, where the hook
    computes one; the caller's property otherwise. *)
Lemma call_lookup (h : Hook) options (field : string) :
  field <> "queryKey" -> field <> "queryFn" ->
  observed (call keys h options) !! field
  = match default_policy h field with
    | Some fallback => Some (coalesce (opt_get options field) fallback)
    | None => supplied options field
    end.
Proof.
  intros Hk Hf.
  destruct h; cbn -[insert];
    repeat match goal with
      | |- context [String.eqb field ?c] =>
          destruct (String.eqb_spec field c) as [-> | ?]
      | |- context [<[?c := _]> _ !! ?c] => rewrite lookup_insert_eq
      | |- context [<[?c := _]> _ !! field] =>
          rewrite (lookup_insert_ne _ c field) by congruence
      | |- context [<[?c := _]> _ !! ?d] =>
          rewrite (lookup_insert_ne _ c d) by discriminate
      end;
    try reflexivity;
    try (apply spread_base_lookup; first [assumption | discriminate]).
Qed.

Lemma enabled_lookup_disables (o : gmap string JsVal) :
  o !! "enabled" = Some (JBool false) -> disabled (useQuery o).
Proof.
  intros H. unfold disabled, useQuery. cbn. rewrite H.
  repeat split; reflexivity.
Qed.

Lemma call_disabled (h : Hook) options (id : Ident) :
  default_policy h "enabled" = Some (JBool (Boolean id)) ->
  Boolean id = false ->
  nullish (opt_get options "enabled") = true ->
  disabled (call keys h options).
Proof.
  intros Hpol Hid Hnull.
  assert (Hlook : observed (call keys h options) !! "enabled"
                  = Some (JBool false)).
  { rewrite call_lookup by discriminate.
    rewrite Hpol. unfold coalesce. rewrite Hnull, Hid. reflexivity. }
  destruct h; try discriminate Hpol;
    apply enabled_lookup_disables; exact Hlook.
Qed.

(** C6 (as amended).  When the identifying parameter is [null],
    [undefined] or the empty string and the caller supplies no [enabled]
    option, each of [useMarketQuery], [useMarketTradesQuery],
    [useUserTradesQuery] and [useAccountQuery] reports disabled and its
    fetch function is not invoked. *)
Theorem hooks_disabled_without_id (id : Ident) options :
  id = undefined \/ id = null \/ id = str "" ->
  nullish (opt_get options "enabled") = true ->
  disabled (useMarketQuery keys id options)
  /\ disabled (useMarketTradesQuery keys id options)
  /\ disabled (useUserTradesQuery keys id options)
  /\ disabled (useAccountQuery keys id options).
Proof.
  intros Hid Hnull.
  assert (Hb : Boolean id = false)
    by (destruct Hid as [-> | [-> | ->]]; reflexivity).
  split; [| split; [| split]].
  - apply (call_disabled (MarketById id) options id); auto.
  - apply (call_disabled (MarketTrades id) options id); auto.
  - apply (call_disabled (UserTrades id) options id); auto.
  - apply (call_disabled (AccountById id) options id); auto.
Qed.

(** C8.  With no options [useMarketsQuery] applies [staleTime = 60000]
    and [gcTime = 300000], and [usePlatformMetricsQuery] applies
    [staleTime = 120000].  For every hook and every policy field: a value
    the caller supplies is the one applied; the computed fallback is
    applied when the caller leaves the field unspecified; a field with no
    computed fallback is passed through as the caller gave it. *)
Theorem hook_policy_defaults_and_overrides :
  (observed (useMarketsQuery keys None) !! "staleTime"
   = Some (JNumber 60000)
   /\ observed (useMarketsQuery keys None) !! "gcTime"
      = Some (JNumber 300000))
  /\ observed (usePlatformMetricsQuery keys None) !! "staleTime"
     = Some (JNumber 120000)
  /\ forall (h : Hook) options (field : string),
       field <> "queryKey" -> field <> "queryFn" ->
       (forall v : JsVal,
          supplied options field = Some v -> nullish v = false ->
          observed (call keys h options) !! field = Some v)
       /\ (forall fallback : JsVal,
             default_policy h field = Some fallback ->
             nullish (opt_get options field) = true ->
             observed (call keys h options) !! field = Some fallback)
       /\ (default_policy h field = None ->
           observed (call keys h options) !! field
           = supplied options field).
Proof.
  split; [split |]; [| | split].
  - apply (call_lookup Markets None "staleTime"); discriminate.
  - apply (call_lookup Markets None "gcTime"); discriminate.
  - apply (call_lookup PlatformMetrics None "staleTime"); discriminate.
  - intros h options field Hk Hf.
    pose proof (call_lookup h options field Hk Hf) as Hlook.
    split; [| split].
    + intros v Hv Hnn. rewrite Hlook.
      rewrite opt_get_supplied, Hv. cbn. unfold coalesce. rewrite Hnn.
      destruct (default_policy h field); reflexivity.
    + intros fallback Hpol Hnull. rewrite Hlook, Hpol.
      unfold coalesce. rewrite Hnull. reflexivity.
    + intros Hpol. rewrite Hlook, Hpol. reflexivity.
Qed.

End HookPolicy.

(** [useMarketQuery(undefined)] never calls [fetchMarketById]; likewise
    [useMarketTradesQuery(undefined)], [useUserTradesQuery(undefined)] and
    [useAccountQuery(undefined)]. *)
Lemma hooks_disabled_without_id_witness :
  Hooks.disabled
    (Hooks.useMarketQuery Hooks.sample_keys Hooks.undefined None)
  /\ Hooks.disabled
       (Hooks.useMarketTradesQuery Hooks.sample_keys Hooks.undefined None)
  /\ Hooks.disabled
       (Hooks.useUserTradesQuery Hooks.sample_keys Hooks.undefined None)
  /\ Hooks.disabled
       (Hooks.useAccountQuery Hooks.sample_keys Hooks.undefined None).
Proof.
  exact (hooks_disabled_without_id Hooks.sample_keys Hooks.undefined None
           (or_introl eq_refl) eq_refl).
Defined.

(** C6 (as stated) fails when the caller overrides [enabled]:
    [useMarketQuery(undefined, { enabled: true })] passes [enabled: true],
    reports enabled, and the query layer calls
    [fetchMarketById(undefined)]. *)
Lemma enabled_override_fetches_without_id :
  let r := Hooks.useMarketQuery Hooks.sample_keys Hooks.undefined
             (Some (<["enabled" := Hooks.JBool true]> ∅)) in
  Hooks.observed r !! "enabled" = Some (Hooks.JBool true)
  /\ Hooks.isEnabled r = true
  /\ Hooks.fetches r = [Hooks.fetchMarketById Hooks.undefined]
  /\ ~ Hooks.disabled r.
Proof.
  cbv zeta.
  assert (H : Hooks.isEnabled
                (Hooks.useMarketQuery Hooks.sample_keys Hooks.undefined
                   (Some (<["enabled" := Hooks.JBool true]> ∅))) = true)
    by (vm_compute; reflexivity).
  split; [vm_compute; reflexivity |].
  split; [exact H |].
  split; [vm_compute; reflexivity |].
  intros (_ & Hoff & _). rewrite H in Hoff. discriminate Hoff.
Qed.

(** [useMarketQuery("m1", { staleTime: 5, retry: 3 })]: the caller's
    [staleTime] and [retry] are applied, [enabled] falls back to
    [Boolean("m1")]. *)
Lemma hook_policy_defaults_and_overrides_witness :
  let options : option (gmap string Hooks.JsVal) :=
    Some (<["staleTime" := Hooks.JNumber 5]>
            (<["retry" := Hooks.JNumber 3]> ∅)) in
  let r := Hooks.useMarketQuery Hooks.sample_keys (Hooks.str "m1") options in
  Hooks.observed r !! "staleTime" = Some (Hooks.JNumber 5)
  /\ Hooks.observed r !! "enabled" = Some (Hooks.JBool true)
  /\ Hooks.observed r !! "retry" = Some (Hooks.JNumber 3).
Proof.
  intros options r.
  pose proof (proj2 (proj2 (hook_policy_defaults_and_overrides
                              Hooks.sample_keys))) as H.
  assert (Hk : forall f : string,
             String.eqb f "queryKey" = false -> f <> "queryKey")
    by (intros f E ->; discriminate E).
  assert (Hf : forall f : string,
             String.eqb f "queryFn" = false -> f <> "queryFn")
    by (intros f E ->; discriminate E).
  split; [| split].
  - exact (proj1 (H (Hooks.MarketById (Hooks.str "m1")) options "staleTime"
                    (Hk "staleTime" eq_refl) (Hf "staleTime" eq_refl))
             (Hooks.JNumber 5) eq_refl eq_refl).
  - exact (proj1 (proj2 (H (Hooks.MarketById (Hooks.str "m1")) options
                           "enabled" (Hk "enabled" eq_refl) (Hf "enabled" eq_refl)))
             (Hooks.JBool true) eq_refl eq_refl).
  - exact (proj2 (proj2 (H (Hooks.MarketById (Hooks.str "m1")) options
                           "retry" (Hk "retry" eq_refl) (Hf "retry" eq_refl)))
             eq_refl).
Defined.

(* ===================================================================== *)
(** ** The facade beyond its guards *)
(* ===================================================================== *)

(** Split on every chain answer and guard met while running. *)
Ltac case_chain :=
  repeat (cbn;
    match goal with
    | |- context [chain_read ?c ?A ?a ?f] =>
        let E := fresh "Hread" in destruct (chain_read c A a f) eqn:E
    | |- context [chain_write ?c ?a ?f] =>
        let E := fresh "Hwrite" in destruct (chain_write c a f) eqn:E
    | |- context [Z.leb ?a ?b] => destruct (Z.leb_spec a b)
    | |- context [Z.ltb ?a ?b] => destruct (Z.ltb_spec a b)
    end).

(** X1.  On a market where selling is closed, [sell] fails with the
    selling-not-enabled error after the single [isSellOpen] read: it
    resolves no token, reads no balance and submits nothing. *)
Theorem sell_closed_market config this depositAmount slippageBps :
  truthy (account_address config) = true ->
  0 < depositAmount ->
  chain_read config bool (marketAddress this) isSellOpen = inr false ->
  let m := sell config this
             {| sell_depositAmount := depositAmount;
                sell_slippageBps := slippageBps |} in
  result m = inl (Error selling_not_enabled)
  /\ issued m = [Read (marketAddress this) isSellOpen]
  /\ errors_logged m
     = [console_error "Sell error:" (Error selling_not_enabled)].
Proof.
  intros Hacc Hpos Hopen m. subst m.
  unfold errors_logged, sell. async_unfold.
  rewrite Hacc. cbn.
  destruct (Z.leb_spec depositAmount 0) as [Hle | _]; [lia |].
  cbn. rewrite Hopen. cbn. repeat split; reflexivity.
Qed.

Lemma sell_closed_market_witness :
  let m := sell (sample_config true false 1000 1000 2000) sample_market
             {| sell_depositAmount := 1000; sell_slippageBps := None |} in
  result m = inl (Error selling_not_enabled)
  /\ issued m = [Read (marketAddress sample_market) isSellOpen]
  /\ errors_logged m
     = [console_error "Sell error:" (Error selling_not_enabled)].
Proof.
  apply (sell_closed_market (sample_config true false 1000 1000 2000)
           sample_market 1000 None); reflexivity.
Defined.

(** X2.  Whatever the chain answers, the calls of [buy] are a prefix of
    [quote read; buy write]: it never reads [isBuyOpen], a balance or an
    allowance, and the write is there only when every guard passed and the
    quote was answered. *)
Theorem buy_calls_shape config this depositAmount slippageBps :
  let m := buy config this
             {| buy_depositAmount := depositAmount;
                buy_slippageBps := slippageBps |} in
  issued m = []
  \/ issued m
     = [Read (marketAddress this) (calculatePurchaseReturn depositAmount)]
  \/ exists expectedOut : Z,
       buy_quoted config this depositAmount expectedOut
       /\ issued m
          = [Read (marketAddress this)
               (calculatePurchaseReturn depositAmount);
             Write (marketAddress this)
               (fn_buy depositAmount
                  (minAmountOut expectedOut (default 50 slippageBps)))].
Proof.
  intros m. subst m. unfold buy_quoted, buy. async_unfold.
  destruct (truthy (account_address config)) eqn:Hacc; cbn;
    [| left; reflexivity].
  case_chain; try (left; reflexivity); try (right; left; reflexivity);
    right; right; eexists; (split; [split; [reflexivity | split; [lia | reflexivity]] | reflexivity]).
Qed.

Lemma sell_submission_inversion config this depositAmount slippageBps :
  let m := sell config this
             {| sell_depositAmount := depositAmount;
                sell_slippageBps := slippageBps |} in
  submitted m <> [] ->
  exists (expectedOut : Z) (fTokenAddress : Address),
    sell_quoted config this depositAmount expectedOut
    /\ issued m
       = [Read (marketAddress this) isSellOpen;
          Read (marketAddress this) getIssuanceToken;
          Read fTokenAddress (balanceOf (the (account_address config)));
          Read fTokenAddress
            (allowance (the (account_address config)) (marketAddress this));
          Read (marketAddress this) (calculateSaleReturn depositAmount);
          Write (marketAddress this)
            (fn_sell depositAmount
               (minAmountOut expectedOut (default 50 slippageBps)))].
Proof.
  intros m. subst m. unfold sell_quoted, sell. async_unfold.
  destruct (account_address config) as [owner |] eqn:Hown; cbn;
    [| intros H; now contradiction H].
  destruct (negb (owner =? "")%string) eqn:Hacc; cbn;
    [| intros H; now contradiction H].
  destruct (Z.leb_spec depositAmount 0) as [Hle | Hpos]; cbn;
    [intros H; now contradiction H |].
  destruct (chain_read config bool (marketAddress this) isSellOpen)
    as [e | [|]] eqn:Hopen; cbn; try (intros H; now contradiction H).
  destruct (chain_read config string (marketAddress this) getIssuanceToken)
    as [e | tok] eqn:Htok; cbn; [intros H; now contradiction H |].
  destruct (chain_read config Z tok (balanceOf owner))
    as [e | bal] eqn:Hbal; cbn; [intros H; now contradiction H |].
  destruct (Z.ltb_spec bal depositAmount) as [Hlt | Hbal_ok]; cbn;
    [intros H; now contradiction H |].
  destruct (chain_read config Z tok (allowance owner (marketAddress this)))
    as [e | alw] eqn:Halw; cbn; [intros H; now contradiction H |].
  destruct (Z.ltb_spec alw depositAmount) as [Hlt | Halw_ok]; cbn;
    [intros H; now contradiction H |].
  destruct (chain_read config Z (marketAddress this)
              (calculateSaleReturn depositAmount))
    as [e | out] eqn:Hq; cbn; [intros H; now contradiction H |].
  intros _. exists out, tok. split.
  - split; [reflexivity |]. split; [exact Hpos |]. split; [reflexivity |].
    exists tok, bal, alw. repeat split; assumption.
  - destruct (chain_write config _ _); reflexivity.
Qed.

(** X3.  [sell] submits a transaction only after every check passed: the
    wallet is connected, the amount is positive, selling is open, and both
    the balance and the allowance read cover the amount.  The journal is
    then the five reads in order followed by the one [sell] write. *)
Theorem sell_submits_only_when_covered
    config this depositAmount slippageBps :
  let m := sell config this
             {| sell_depositAmount := depositAmount;
                sell_slippageBps := slippageBps |} in
  submitted m <> [] ->
  exists (expectedOut : Z) (fTokenAddress : Address),
    sell_quoted config this depositAmount expectedOut
    /\ issued m
       = [Read (marketAddress this) isSellOpen;
          Read (marketAddress this) getIssuanceToken;
          Read fTokenAddress (balanceOf (the (account_address config)));
          Read fTokenAddress
            (allowance (the (account_address config)) (marketAddress this));
          Read (marketAddress this) (calculateSaleReturn depositAmount);
          Write (marketAddress this)
            (fn_sell depositAmount
               (minAmountOut expectedOut (default 50 slippageBps)))].
Proof. exact (sell_submission_inversion config this depositAmount slippageBps). Qed.

Lemma sell_submits_only_when_covered_witness :
  exists (expectedOut : Z) (fTokenAddress : Address),
    sell_quoted (sample_config true true 1000 1000 2000) sample_market
      1000 expectedOut
    /\ issued (sell (sample_config true true 1000 1000 2000) sample_market
                 {| sell_depositAmount := 1000; sell_slippageBps := None |})
       = [Read (marketAddress sample_market) isSellOpen;
          Read (marketAddress sample_market) getIssuanceToken;
          Read fTokenAddress (balanceOf sample_owner);
          Read fTokenAddress
            (allowance sample_owner (marketAddress sample_market));
          Read (marketAddress sample_market) (calculateSaleReturn 1000);
          Write (marketAddress sample_market)
            (fn_sell 1000 (minAmountOut expectedOut 50))].
Proof.
  apply (sell_submits_only_when_covered
           (sample_config true true 1000 1000 2000) sample_market 1000 None).
  intro H. discriminate H.
Defined.

(** X4.  [buy], [sell] and [approve] write one [console.error] line
    exactly when they fail, and the error they raise is the one they
    logged: the original exception is re-raised unchanged. *)
Theorem mutations_log_and_rethrow config this amount_ slippageBps :
  let b := buy config this
             {| buy_depositAmount := amount_;
                buy_slippageBps := slippageBps |} in
  let s := sell config this
             {| sell_depositAmount := amount_;
                sell_slippageBps := slippageBps |} in
  let a := approve config this {| amount := amount_ |} in
  errors_logged b
  = match result b with
    | inl e => [console_error "Buy error:" e]
    | inr _ => []
    end
  /\ errors_logged s
     = match result s with
       | inl e => [console_error "Sell error:" e]
       | inr _ => []
       end
  /\ errors_logged a
     = match result a with
       | inl e => [console_error "Approve error:" e]
       | inr _ => []
       end.
Proof.
  intros b s a. subst b s a.
  unfold errors_logged, buy, sell, approve. async_unfold.
  destruct (truthy (account_address config)); cbn;
    [| repeat split; reflexivity].
  destruct (Z.leb_spec amount_ 0); cbn; [repeat split; reflexivity |].
  split; [| split].
  - case_chain; reflexivity.
  - destruct (chain_read config bool (marketAddress this) isSellOpen)
      as [e | [|]]; cbn; try reflexivity.
    case_chain; reflexivity.
  - case_chain; reflexivity.
Qed.

(** X5.  For an integer [slippageBps] in the exact range (or the default
    50), once every guard passed and the quote is in, the result of [buy]
    and of [sell] is the outcome of the submission itself: the hash it
    returns, or the very error it raised.  (On a fractional [slippageBps]
    the conversion [BigInt(10000 - slippageBps)] can throw before the
    submission; such numbers are outside the embedding.) *)
Theorem mutation_result_is_submission
    config this depositAmount slippageBps expectedOut :
  exact_bps (default 50 slippageBps) ->
  (buy_quoted config this depositAmount expectedOut ->
   result (buy config this
     {| buy_depositAmount := depositAmount;
        buy_slippageBps := slippageBps |})
   = match chain_write config (marketAddress this)
             (fn_buy depositAmount
                (minAmountOut expectedOut (default 50 slippageBps))) with
     | inl e => inl e
     | inr h => inr {| hash := h |}
     end)
  /\
  (sell_quoted config this depositAmount expectedOut ->
   result (sell config this
     {| sell_depositAmount := depositAmount;
        sell_slippageBps := slippageBps |})
   = match chain_write config (marketAddress this)
             (fn_sell depositAmount
                (minAmountOut expectedOut (default 50 slippageBps))) with
     | inl e => inl e
     | inr h => inr {| hash := h |}
     end).
Proof.
  intros _. split.
  - intros (Hacc & Hpos & Hq).
    unfold buy. async_unfold.
    rewrite Hacc. cbn.
    destruct (Z.leb_spec depositAmount 0) as [Hle | _]; [lia |].
    cbn. rewrite Hq. cbn.
    destruct (chain_write config _ _); reflexivity.
  - intros (Hacc & Hpos & Hopen & tok & bal & alw & Htok & Hbal & Hbal_ok
            & Halw & Halw_ok & Hq).
    unfold sell. async_unfold.
    destruct (account_address config) as [owner |]; [| discriminate].
    cbn in *. rewrite Hacc. cbn.
    destruct (Z.leb_spec depositAmount 0) as [Hle | _]; [lia |].
    cbn. rewrite Hopen. cbn. rewrite Htok. cbn. rewrite Hbal. cbn.
    destruct (Z.ltb_spec bal depositAmount) as [Hlt | _]; [lia |].
    cbn. rewrite Halw. cbn.
    destruct (Z.ltb_spec alw depositAmount) as [Hlt | _]; [lia |].
    cbn. rewrite Hq. cbn.
    destruct (chain_write config _ _); reflexivity.
Qed.

Lemma rejecting_buy_quoted e :
  buy_quoted (rejecting (sample_config true true 1000 1000 2000) e)
    sample_market 1000 2000.
Proof. repeat split. Defined.

(** A mined sell, and a buy whose submission the wallet rejects. *)
Lemma mutation_result_is_submission_witness :
  result (sell (sample_config true true 1000 1000 2000) sample_market
            {| sell_depositAmount := 1000; sell_slippageBps := None |})
  = inr {| hash := "0x7a" |}
  /\
  result (buy (rejecting (sample_config true true 1000 1000 2000)
                 (Error "User rejected the request."))
            sample_market
            {| buy_depositAmount := 1000; buy_slippageBps := None |})
  = inl (Error "User rejected the request.").
Proof.
  assert (Hbps : exact_bps (default 50 None))
    by (split; intro H; discriminate H).
  split.
  - exact (proj2 (mutation_result_is_submission
                    (sample_config true true 1000 1000 2000) sample_market
                    1000 None 2000 Hbps) (sample_sell_quoted 2000)).
  - exact (proj1 (mutation_result_is_submission
                    (rejecting (sample_config true true 1000 1000 2000)
                       (Error "User rejected the request."))
                    sample_market 1000 None 2000 Hbps)
             (rejecting_buy_quoted (Error "User rejected the request."))).
Defined.

(** X6.  [actions.approve] runs on the config its getter captured;
    [approveFToken] calls [useConfig()] itself.  With a connected wallet
    and a positive amount: when that hook call returns the same config,
    the two, given the same chain answers, issue the same two calls
    (approving the market as spender for exactly [amount]) and have the
    same result and progress lines; when it throws, [approveFToken] fails
    with the hook's error and calls nothing. *)
Theorem approve_agrees_with_approveFToken config this amount_ :
  truthy (account_address config) = true ->
  0 < amount_ ->
  let a := approve config this {| amount := amount_ |} in
  (let f := approveFToken (inr config) this amount_ in
   result a = result f
   /\ issued a = issued f
   /\ List.filter (fun l => negb (is_error_line l)) (printed a) = printed f)
  /\
  (forall e : Exn,
     let f := approveFToken (inl e) this amount_ in
     result f = inl e /\ issued f = [] /\ printed f = []).
Proof.
  intros Hacc Hpos a. subst a. split.
  - unfold approve, approveFToken. async_unfold.
    rewrite Hacc. cbn.
    destruct (Z.leb_spec amount_ 0) as [Hle | _]; [lia |].
    case_chain; repeat split; reflexivity.
  - intros e. repeat split; reflexivity.
Qed.

Lemma approve_agrees_with_approveFToken_witness :
  let a := approve (sample_config true true 0 0 0) sample_market
             {| amount := 1000 |} in
  (let f := approveFToken (inr (sample_config true true 0 0 0))
              sample_market 1000 in
   result a = result f
   /\ issued a = issued f
   /\ List.filter (fun l => negb (is_error_line l)) (printed a) = printed f)
  /\
  (forall e : Exn,
     let f := approveFToken (inl e) sample_market 1000 in
     result f = inl e /\ issued f = [] /\ printed f = []).
Proof.
  apply (approve_agrees_with_approveFToken
           (sample_config true true 0 0 0) sample_market 1000);
    reflexivity.
Defined.

Lemma getFTokenAllowance_connected config this fTokenAddress :
  truthy (account_address config) = true ->
  chain_read config Address (marketAddress this) getIssuanceToken
    = inr fTokenAddress ->
  result (getFTokenAllowance (inr config) this)
  = chain_read config Z fTokenAddress
      (allowance (the (account_address config)) (marketAddress this))
  /\ issued (getFTokenAllowance (inr config) this)
     = [Read (marketAddress this) getIssuanceToken;
        Read fTokenAddress
          (allowance (the (account_address config)) (marketAddress this))].
Proof.
  intros Hacc Htok. unfold getFTokenAllowance. async_unfold.
  rewrite Hacc. cbn. rewrite Htok. cbn.
  destruct (chain_read config Z fTokenAddress _); split; reflexivity.
Qed.

(** X7.  [getFTokenAllowance] never submits and never logs.  Where its
    opening hook call [useConfig()] throws, it fails with that error
    before any call.  Where the hook returns a config: without a connected
    wallet it fails with 'Wallet not connected' before any call; with one,
    it resolves the issuance token and returns what the token answers for
    [allowance(owner, market)]. *)
Theorem getFTokenAllowance_reads_only (useConfig : Outcome Config) this :
  let m := getFTokenAllowance useConfig this in
  submitted m = []
  /\ printed m = []
  /\ (forall e : Exn,
        useConfig = inl e -> result m = inl e /\ issued m = [])
  /\ (forall config : Config,
        useConfig = inr config ->
        (truthy (account_address config) = false ->
         result m = inl (Error "Wallet not connected") /\ issued m = [])
        /\ (forall fTokenAddress : Address,
              truthy (account_address config) = true ->
              chain_read config Address (marketAddress this)
                getIssuanceToken = inr fTokenAddress ->
              result m
              = chain_read config Z fTokenAddress
                  (allowance (the (account_address config))
                     (marketAddress this))
              /\ issued m
                 = [Read (marketAddress this) getIssuanceToken;
                    Read fTokenAddress
                      (allowance (the (account_address config))
                         (marketAddress this))])).
Proof.
  intros m. subst m.
  destruct useConfig as [e | config].
  - split; [reflexivity |]. split; [reflexivity |]. split.
    + intros e' He. injection He as <-. split; reflexivity.
    + intros config He. discriminate He.
  - split; [| split; [| split]].
    + unfold getFTokenAllowance. async_unfold.
      destruct (truthy (account_address config)); cbn; [| reflexivity].
      case_chain; reflexivity.
    + unfold getFTokenAllowance. async_unfold.
      destruct (truthy (account_address config)); cbn; [| reflexivity].
      case_chain; reflexivity.
    + intros e H. discriminate H.
    + intros config' H. injection H as <-. split.
      * intros Hacc. unfold getFTokenAllowance. async_unfold.
        rewrite Hacc. split; reflexivity.
      * intros tok Hacc Htok.
        exact (getFTokenAllowance_connected config this tok Hacc Htok).
Qed.

(** Called from an event handler; and called where the hook returns a
    config whose wallet granted 400. *)
Lemma getFTokenAllowance_reads_only_witness :
  (result (getFTokenAllowance (inl invalid_hook_call) sample_market)
   = inl invalid_hook_call
   /\ issued (getFTokenAllowance (inl invalid_hook_call) sample_market) = [])
  /\
  (result (getFTokenAllowance (inr (sample_config true true 1000 400 2000))
             sample_market) = inr 400
   /\ issued (getFTokenAllowance (inr (sample_config true true 1000 400 2000))
                sample_market)
      = [Read (marketAddress sample_market) getIssuanceToken;
         Read sample_token
           (allowance sample_owner (marketAddress sample_market))]).
Proof.
  split.
  - exact (proj1 (proj2 (proj2 (getFTokenAllowance_reads_only
             (inl invalid_hook_call) sample_market)))
             invalid_hook_call eq_refl).
  - exact (proj2 (proj2 (proj2 (proj2 (getFTokenAllowance_reads_only
             (inr (sample_config true true 1000 400 2000)) sample_market)))
             (sample_config true true 1000 400 2000) eq_refl)
             sample_token eq_refl eq_refl).
Defined.

(* ===================================================================== *)
(** ** More slippage arithmetic *)
(* ===================================================================== *)

Lemma minAmountOut_zero_tolerance expectedOut :
  minAmountOut expectedOut 0 = expectedOut.
Proof.
  unfold minAmountOut, BigInt.
  replace (10000 - 0) with 10000 by lia.
  apply Z.quot_mul. lia.
Qed.

(** X9.  At the ends of the range: with a tolerance of 0 bps [buy] and
    [sell] submit the quote itself as minimum-out, for every quote; with
    10000 bps the minimum-out is 0. *)
Theorem tolerance_endpoints config this depositAmount expectedOut :
  minAmountOut expectedOut 10000 = 0
  /\
  (buy_quoted config this depositAmount expectedOut ->
   submitted (buy config this
     {| buy_depositAmount := depositAmount; buy_slippageBps := Some 0 |})
   = [Write (marketAddress this) (fn_buy depositAmount expectedOut)])
  /\
  (sell_quoted config this depositAmount expectedOut ->
   submitted (sell config this
     {| sell_depositAmount := depositAmount; sell_slippageBps := Some 0 |})
   = [Write (marketAddress this) (fn_sell depositAmount expectedOut)]).
Proof.
  split; [| split].
  - unfold minAmountOut, BigInt. replace (10000 - 10000) with 0 by lia.
    rewrite Z.mul_0_r. reflexivity.
  - intros Hq. rewrite (buy_submits _ _ _ (Some 0) _ Hq). cbn [default].
    now rewrite minAmountOut_zero_tolerance.
  - intros Hq. rewrite (sell_submits _ _ _ (Some 0) _ Hq). cbn [default].
    now rewrite minAmountOut_zero_tolerance.
Qed.

Lemma tolerance_endpoints_witness :
  submitted (buy (sample_config true true 1000 1000 2000) sample_market
    {| buy_depositAmount := 1000; buy_slippageBps := Some 0 |})
  = [Write (marketAddress sample_market) (fn_buy 1000 2000)]
  /\
  submitted (sell (sample_config true true 1000 1000 2000) sample_market
    {| sell_depositAmount := 1000; sell_slippageBps := Some 0 |})
  = [Write (marketAddress sample_market) (fn_sell 1000 2000)].
Proof.
  destruct (tolerance_endpoints (sample_config true true 1000 1000 2000)
              sample_market 1000 2000) as (_ & Hbuy & Hsell).
  split.
  - exact (Hbuy (sample_buy_quoted 1000 1000 2000)).
  - exact (Hsell (sample_sell_quoted 2000)).
Defined.



(** X11.  For a fixed tolerance of at most 10000 bps, a larger quote never
    yields a smaller minimum-out. *)
Theorem minimum_monotone_in_quote e1 e2 slippageBps :
  exact_bps slippageBps ->
  slippageBps <= 10000 -> e1 <= e2 ->
  minAmountOut e1 slippageBps <= minAmountOut e2 slippageBps.
Proof.
  intros _ Hs He. unfold minAmountOut, BigInt.
  apply Z.quot_le_mono; [lia |].
  apply Z.mul_le_mono_nonneg_r; lia.
Qed.

Lemma minimum_monotone_in_quote_witness :
  minAmountOut 1999 50 <= minAmountOut 2000 50.
Proof.
  apply minimum_monotone_in_quote; [split | |]; intro H; discriminate H.
Defined.



(* ===================================================================== *)
(** ** The trade module beyond the executor's contract *)
(* ===================================================================== *)

(** X13.  The mutations of [useTrade] fail with the wallet-not-connected
    error, and call nothing, when there is no wallet client.  Whatever the
    inputs, each issues at most one call, and issues it only when the
    client has an account and both decimal strings were converted. *)
Theorem trade_mutations_call_once_when_ready
    (parseUnits : string -> Z -> Outcome Z)
    (walletClient : option Trade.WalletClient)
    (bp : Trade.BuyTradeParams) (sp : Trade.SellTradeParams) :
  let b := Trade.buyMutation parseUnits walletClient bp in
  let s := Trade.sellMutation parseUnits walletClient sp in
  (walletClient = None ->
   (result b = inl (Error Trade.wallet_missing) /\ issued b = [])
   /\ (result s = inl (Error Trade.wallet_missing) /\ issued s = []))
  /\
  (issued b = []
   \/ exists wc acc amountWei minWei,
        walletClient = Some wc
        /\ Trade.account wc = Some acc
        /\ parseUnits (Trade.depositAmount bp) (Trade.buy_decimals bp)
           = inr amountWei
        /\ parseUnits (Trade.buy_minAmountOut bp) (Trade.buy_decimals bp)
           = inr minWei
        /\ issued b
           = [Write (Trade.buy_floorAssetAddress bp)
                (fn_buy amountWei minWei)])
  /\
  (issued s = []
   \/ exists wc acc amountWei minWei,
        walletClient = Some wc
        /\ Trade.account wc = Some acc
        /\ parseUnits (Trade.sellAmount sp) (Trade.sell_decimals sp)
           = inr amountWei
        /\ parseUnits (Trade.sell_minAmountOut sp) (Trade.sell_decimals sp)
           = inr minWei
        /\ issued s
           = [Write (Trade.sell_floorAssetAddress sp)
                (fn_sell amountWei minWei)]).
Proof.
  intros b s. subst b s.
  unfold Trade.buyMutation, Trade.sellMutation,
    Trade.executeBuyTrade, Trade.executeSellTrade,
    Trade.wallet_writeContract.
  split; [| split].
  - intros ->. async_unfold. repeat split; reflexivity.
  - destruct walletClient as [wc |]; [| left; reflexivity].
    destruct (Trade.account wc) as [acc |] eqn:Hacc; [| left; reflexivity].
    async_unfold.
    destruct (parseUnits (Trade.depositAmount bp) (Trade.buy_decimals bp))
      as [e | a] eqn:Ha; cbn; [left; reflexivity |].
    destruct (parseUnits (Trade.buy_minAmountOut bp) (Trade.buy_decimals bp))
      as [e | m] eqn:Hm; cbn; [left; reflexivity |].
    right. exists wc, acc, a, m.
    repeat split; try assumption.
    destruct (Trade.submit wc _); reflexivity.
  - destruct walletClient as [wc |]; [| left; reflexivity].
    destruct (Trade.account wc) as [acc |] eqn:Hacc; [| left; reflexivity].
    async_unfold.
    destruct (parseUnits (Trade.sellAmount sp) (Trade.sell_decimals sp))
      as [e | a] eqn:Ha; cbn; [left; reflexivity |].
    destruct (parseUnits (Trade.sell_minAmountOut sp) (Trade.sell_decimals sp))
      as [e | m] eqn:Hm; cbn; [left; reflexivity |].
    right. exists wc, acc, a, m.
    repeat split; try assumption.
    destruct (Trade.submit wc _); reflexivity.
Qed.

Lemma trade_mutations_call_once_when_ready_witness :
  result (Trade.buyMutation Trade.parseUnits_whole None sample_buy_trade)
  = inl (Error Trade.wallet_missing)
  /\ issued (Trade.buyMutation Trade.parseUnits_whole None sample_buy_trade)
     = [].
Proof.
  exact (proj1 (proj1 (trade_mutations_call_once_when_ready
                         Trade.parseUnits_whole None
                         sample_buy_trade sample_sell_trade) eq_refl)).
Defined.

(** X14.  A decimal string that [parseUnits] rejects, be it the amount or
    the minimum-out, makes the executor fail with the parser's own error
    before anything is submitted. *)
Theorem executor_rejects_malformed_amounts
    (parseUnits : string -> Z -> Outcome Z)
    (walletClient : Trade.WalletClient)
    (bp : Trade.BuyTradeParams) (sp : Trade.SellTradeParams) (e : Exn) :
  Trade.account walletClient <> None ->
  (parseUnits (Trade.depositAmount bp) (Trade.buy_decimals bp) = inl e
   \/ (exists amountWei,
         parseUnits (Trade.depositAmount bp) (Trade.buy_decimals bp)
           = inr amountWei)
      /\ parseUnits (Trade.buy_minAmountOut bp) (Trade.buy_decimals bp)
         = inl e ->
   result (Trade.executeBuyTrade parseUnits walletClient bp) = inl e
   /\ issued (Trade.executeBuyTrade parseUnits walletClient bp) = [])
  /\
  (parseUnits (Trade.sellAmount sp) (Trade.sell_decimals sp) = inl e
   \/ (exists amountWei,
         parseUnits (Trade.sellAmount sp) (Trade.sell_decimals sp)
           = inr amountWei)
      /\ parseUnits (Trade.sell_minAmountOut sp) (Trade.sell_decimals sp)
         = inl e ->
   result (Trade.executeSellTrade parseUnits walletClient sp) = inl e
   /\ issued (Trade.executeSellTrade parseUnits walletClient sp) = []).
Proof.
  intros Hacc.
  unfold Trade.executeBuyTrade, Trade.executeSellTrade,
    Trade.wallet_writeContract.
  destruct (Trade.account walletClient) as [acc |]; [| congruence].
  async_unfold.
  split; intros [Ha | [[a Ha] Hm]]; rewrite Ha; cbn;
    try rewrite Hm; cbn; split; reflexivity.
Qed.

(** The amount "1000" parses, the minimum-out "9x0" does not. *)
Lemma executor_rejects_malformed_amounts_witness :
  result (Trade.executeBuyTrade Trade.parseUnits_whole
            (sample_wallet true) malformed_buy_trade)
  = inl (Error "Invalid decimal number")
  /\ issued (Trade.executeBuyTrade Trade.parseUnits_whole
               (sample_wallet true) malformed_buy_trade) = [].
Proof.
  assert (Hacc : Trade.account (sample_wallet true) <> None)
    by (intro H; discriminate H).
  apply (proj1 (executor_rejects_malformed_amounts Trade.parseUnits_whole
                  (sample_wallet true) malformed_buy_trade sample_sell_trade
                  (Error "Invalid decimal number") Hacc)).
  right. split; [exists 100000; reflexivity | reflexivity].
Defined.

Lemma quote_run
    (parseUnits : string -> Z -> Outcome Z) (formatUnits : Z -> Z -> string)
    (publicClient : Quote.PublicClient) (addr : Address)
    (value : string) (decimals : Z) :
  (let m := Quote.calculateBuyReturn parseUnits formatUnits publicClient
              addr value decimals in
   match parseUnits value decimals with
   | inl e => result m = inl e /\ issued m = []
   | inr wei =>
       issued m = [Read addr (calculatePurchaseReturn wei)]
       /\ result m
          = match Quote.answer publicClient Z addr
                    (calculatePurchaseReturn wei) with
            | inl e => inl e
            | inr out => inr (formatUnits out decimals)
            end
   end)
  /\
  (let m := Quote.calculateSellReturn parseUnits formatUnits publicClient
              addr value decimals in
   match parseUnits value decimals with
   | inl e => result m = inl e /\ issued m = []
   | inr wei =>
       issued m = [Read addr (calculateSaleReturn wei)]
       /\ result m
          = match Quote.answer publicClient Z addr
                    (calculateSaleReturn wei) with
            | inl e => inl e
            | inr out => inr (formatUnits out decimals)
            end
   end).
Proof.
  unfold Quote.calculateBuyReturn, Quote.calculateSellReturn,
    Quote.public_readContract.
  async_unfold.
  destruct (parseUnits value decimals) as [e | wei]; cbn.
  - repeat split; reflexivity.
  - split.
    + destruct (Quote.answer publicClient Z addr
                  (calculatePurchaseReturn wei)); split; reflexivity.
    + destruct (Quote.answer publicClient Z addr
                  (calculateSaleReturn wei)); split; reflexivity.
Qed.

(** X15.  [calculateBuyReturn] and [calculateSellReturn] never submit.
    When the amount is rejected by [parseUnits] they fail with its error
    before any call; otherwise they issue the single preview read with the
    converted amount and return the quote rendered by [formatUnits] at the
    same precision (or the read's own error). *)
Theorem quotes_read_once_and_format
    (parseUnits : string -> Z -> Outcome Z) (formatUnits : Z -> Z -> string)
    (publicClient : Quote.PublicClient) (addr : Address)
    (value : string) (decimals : Z) :
  let b := Quote.calculateBuyReturn parseUnits formatUnits publicClient
             addr value decimals in
  let s := Quote.calculateSellReturn parseUnits formatUnits publicClient
             addr value decimals in
  submitted b = [] /\ submitted s = []
  /\ match parseUnits value decimals with
     | inl e =>
         (result b = inl e /\ issued b = [])
         /\ (result s = inl e /\ issued s = [])
     | inr wei =>
         (issued b = [Read addr (calculatePurchaseReturn wei)]
          /\ result b
             = match Quote.answer publicClient Z addr
                       (calculatePurchaseReturn wei) with
               | inl e => inl e
               | inr out => inr (formatUnits out decimals)
               end)
         /\ (issued s = [Read addr (calculateSaleReturn wei)]
             /\ result s
                = match Quote.answer publicClient Z addr
                          (calculateSaleReturn wei) with
                  | inl e => inl e
                  | inr out => inr (formatUnits out decimals)
                  end)
     end.
Proof.
  intros b s. subst b s.
  destruct (quote_run parseUnits formatUnits publicClient addr value decimals)
    as [Hb Hs].
  cbv zeta in Hb, Hs.
  unfold submitted.
  destruct (parseUnits value decimals) as [e | wei].
  - destruct Hb as [Hb1 Hb2], Hs as [Hs1 Hs2].
    rewrite Hb2, Hs2. repeat split; assumption.
  - destruct Hb as [Hb1 Hb2], Hs as [Hs1 Hs2].
    rewrite Hb1, Hs1. repeat split; assumption.
Qed.

(** X16.  Quote, then trade.  If [parseUnits] reads back the string that
    [formatUnits] wrote for the quote, then passing the string returned by
    [calculateBuyReturn] (resp. [calculateSellReturn]) as [minAmountOut]
    makes the executor submit exactly the quoted amount as minimum-out. *)
Theorem quote_then_execute
    (parseUnits : string -> Z -> Outcome Z) (formatUnits : Z -> Z -> string)
    (publicClient : Quote.PublicClient) (walletClient : Trade.WalletClient)
    (addr : Address) (value : string) (decimals amountWei out : Z) :
  Trade.account walletClient <> None ->
  parseUnits value decimals = inr amountWei ->
  parseUnits (formatUnits out decimals) decimals = inr out ->
  (Quote.answer publicClient Z addr (calculatePurchaseReturn amountWei)
     = inr out ->
   exists quote : string,
     result (Quote.calculateBuyReturn parseUnits formatUnits publicClient
               addr value decimals) = inr quote
     /\ issued (Trade.executeBuyTrade parseUnits walletClient
                  {| Trade.buy_floorAssetAddress := addr;
                     Trade.depositAmount := value;
                     Trade.buy_minAmountOut := quote;
                     Trade.buy_decimals := decimals |})
        = [Write addr (fn_buy amountWei out)])
  /\
  (Quote.answer publicClient Z addr (calculateSaleReturn amountWei)
     = inr out ->
   exists quote : string,
     result (Quote.calculateSellReturn parseUnits formatUnits publicClient
               addr value decimals) = inr quote
     /\ issued (Trade.executeSellTrade parseUnits walletClient
                  {| Trade.sell_floorAssetAddress := addr;
                     Trade.sellAmount := value;
                     Trade.sell_minAmountOut := quote;
                     Trade.sell_decimals := decimals |})
        = [Write addr (fn_sell amountWei out)]).
Proof.
  intros Hacc Hparse Hround.
  destruct (quote_run parseUnits formatUnits publicClient addr value decimals)
    as [Hb Hs].
  cbv zeta in Hb, Hs. rewrite Hparse in Hb, Hs.
  destruct (Trade.account walletClient) as [acc |] eqn:Hacc';
    [| congruence].
  split; intros Hans; exists (formatUnits out decimals).
  - destruct Hb as [_ Hb]. rewrite Hans in Hb. split; [exact Hb |].
    unfold Trade.executeBuyTrade, Trade.wallet_writeContract.
    rewrite Hacc'. async_unfold. rewrite Hparse. cbn. rewrite Hround. cbn.
    destruct (Trade.submit walletClient _); reflexivity.
  - destruct Hs as [_ Hs]. rewrite Hans in Hs. split; [exact Hs |].
    unfold Trade.executeSellTrade, Trade.wallet_writeContract.
    rewrite Hacc'. async_unfold. rewrite Hparse. cbn. rewrite Hround. cbn.
    destruct (Trade.submit walletClient _); reflexivity.
Qed.

(** Buying with "1000" at precision 2 against a quote of 99000: the
    helper returns "990" and the executor submits [buy(100000, 99000)]. *)
Lemma quote_then_execute_witness :
  exists quote : string,
    result (Quote.calculateBuyReturn Trade.parseUnits_whole
              Quote.formatUnits_whole (sample_public 99000)
              (marketAddress sample_market) "1000" 2) = inr quote
    /\ issued (Trade.executeBuyTrade Trade.parseUnits_whole
                 (sample_wallet true)
                 {| Trade.buy_floorAssetAddress := marketAddress sample_market;
                    Trade.depositAmount := "1000";
                    Trade.buy_minAmountOut := quote;
                    Trade.buy_decimals := 2 |})
       = [Write (marketAddress sample_market) (fn_buy 100000 99000)].
Proof.
  assert (Hacc : Trade.account (sample_wallet true) <> None)
    by (intro H; discriminate H).
  exact (proj1 (quote_then_execute Trade.parseUnits_whole
                  Quote.formatUnits_whole (sample_public 99000)
                  (sample_wallet true) (marketAddress sample_market)
                  "1000" 2 100000 99000 Hacc eq_refl eq_refl) eq_refl).
Defined.

(* ===================================================================== *)
(** ** The data-fetch hooks: what is fetched *)
(* ===================================================================== *)

Section HookFetch.

Import Hooks.

Variable keys : QueryKeys.

Lemma call_is_useQuery (h : Hook) options :
  call keys h options = useQuery (observed (call keys h options)).
Proof. destruct h; reflexivity. Qed.

(** The [queryKey] and [queryFn] a hook passes, when the caller's options
    carry neither (as their type requires). *)
Lemma call_key_and_fn (h : Hook) options :
  supplied options "queryKey" = None ->
  supplied options "queryFn" = None ->
  observed (call keys h options) !! "queryKey" = Some (hook_key keys h)
  /\ observed (call keys h options) !! "queryFn"
     = Some (JQueryFn (hook_fetch h)).
Proof.
  intros Hk Hf.
  assert (Hspread : forall (k : JsVal) (f : Fetch),
    spread options (<["queryFn" := JQueryFn f]> (<["queryKey" := k]> ∅))
      !! "queryKey" = Some k
    /\ spread options (<["queryFn" := JQueryFn f]> (<["queryKey" := k]> ∅))
         !! "queryFn" = Some (JQueryFn f)).
  { intros k f. destruct options as [o |]; cbn in *.
    - rewrite !lookup_union_r by assumption.
      rewrite lookup_insert_ne by discriminate.
      rewrite !lookup_insert_eq. split; reflexivity.
    - rewrite lookup_insert_ne by discriminate.
      rewrite !lookup_insert_eq. split; reflexivity. }
  destruct h; cbn -[insert spread];
    repeat (rewrite (lookup_insert_ne _ _ "queryKey") by discriminate);
    repeat (rewrite (lookup_insert_ne _ _ "queryFn") by discriminate);
    apply Hspread.
Qed.

Lemma useQuery_runs (o : gmap string JsVal) (f : Fetch) :
  o !! "enabled" <> Some (JBool false) ->
  o !! "queryFn" = Some (JQueryFn f) ->
  isEnabled (useQuery o) = true /\ fetches (useQuery o) = [f].
Proof.
  intros Hen Hfn. unfold useQuery. cbn. rewrite Hfn.
  destruct (o !! "enabled") as [[| | [|] | | | |] |];
    try (split; reflexivity).
  now contradiction Hen.
Qed.

(** X17.  With a non-empty id, and options that carry no [enabled],
    [queryKey] or [queryFn], each of the four id-keyed hooks is enabled,
    passes the cache key built from that id and fetches with that same
    id. *)
Theorem hooks_fetch_their_id (s : string) options :
  s <> "" ->
  nullish (opt_get options "enabled") = true ->
  supplied options "queryKey" = None ->
  supplied options "queryFn" = None ->
  forall h : Hook,
    h = MarketById (str s) \/ h = MarketTrades (str s)
    \/ h = UserTrades (str s) \/ h = AccountById (str s) ->
    isEnabled (call keys h options) = true
    /\ fetches (call keys h options) = [hook_fetch h]
    /\ observed (call keys h options) !! "queryKey"
       = Some (hook_key keys h).
Proof.
  intros Hs Hnull Hk Hf h Hh.
  destruct (call_key_and_fn h options Hk Hf) as [Hkey Hfn].
  assert (Hb : Boolean (str s) = true).
  { cbn. destruct (String.eqb_spec s ""); [contradiction | reflexivity]. }
  assert (Hen : observed (call keys h options) !! "enabled"
                = Some (JBool true)).
  { rewrite call_lookup by discriminate.
    assert (Hpol : default_policy h "enabled"
                   = Some (JBool (Boolean (str s))))
      by (destruct Hh as [-> | [-> | [-> | ->]]]; reflexivity).
    rewrite Hpol. unfold coalesce. rewrite Hnull, Hb. reflexivity. }
  rewrite call_is_useQuery.
  destruct (useQuery_runs _ _ ltac:(rewrite Hen; discriminate) Hfn)
    as [H1 H2].
  repeat split; assumption.
Qed.

(** X18.  The caller can switch any of the six hooks off: with
    [enabled: false] in the options the hook reports disabled and fetches
    nothing, whatever the id. *)
Theorem hooks_switched_off_by_caller (h : Hook) options :
  supplied options "enabled" = Some (JBool false) ->
  disabled (call keys h options).
Proof.
  intros Hoff.
  assert (Hen : observed (call keys h options) !! "enabled"
                = Some (JBool false)).
  { rewrite call_lookup by discriminate.
    rewrite opt_get_supplied, Hoff.
    destruct (default_policy h "enabled"); reflexivity. }
  rewrite call_is_useQuery.
  apply enabled_lookup_disables. exact Hen.
Qed.

(** X19.  [usePlatformMetricsQuery] and [useMarketsQuery] compute no
    [enabled]: when the caller passes none (or [undefined], [null] or
    [true]) they are enabled and fetch the platform metrics, resp. the
    market list. *)
Theorem listing_hooks_always_fetch options :
  (forall v : JsVal,
     supplied options "enabled" = Some v ->
     nullish v = true \/ v = JBool true) ->
  supplied options "queryFn" = None ->
  (isEnabled (usePlatformMetricsQuery keys options) = true
   /\ fetches (usePlatformMetricsQuery keys options) = [fetchPlatformMetrics])
  /\ (isEnabled (useMarketsQuery keys options) = true
      /\ fetches (useMarketsQuery keys options) = [fetchMarkets]).
Proof.
  intros Hen' Hf.
  assert (Hen : supplied options "enabled" <> Some (JBool false)).
  { intros Hoff. destruct (Hen' _ Hoff) as [H | H]; discriminate H. }
  assert (H : forall h : Hook,
             default_policy h "enabled" = None ->
             supplied options "queryFn" = None ->
             observed (call keys h options) !! "queryFn"
               = Some (JQueryFn (hook_fetch h)) ->
             isEnabled (call keys h options) = true
             /\ fetches (call keys h options) = [hook_fetch h]).
  { intros h Hpol _ Hfn. rewrite call_is_useQuery.
    apply useQuery_runs; [| exact Hfn].
    rewrite call_lookup by discriminate. rewrite Hpol. exact Hen. }
  assert (Hfn : forall h : Hook,
             observed (call keys h options) !! "queryFn"
             = Some (JQueryFn (hook_fetch h))).
  { intros h. destruct h; cbn -[insert spread];
      repeat (rewrite (lookup_insert_ne _ _ "queryFn") by discriminate);
      (destruct options as [o |]; cbn in *;
       [rewrite lookup_union_r by assumption |];
       apply lookup_insert_eq). }
  split.
  - apply (H PlatformMetrics eq_refl Hf (Hfn PlatformMetrics)).
  - apply (H Markets eq_refl Hf (Hfn Markets)).
Qed.

End HookFetch.

Lemma hooks_fetch_their_id_witness :
  Hooks.isEnabled
    (Hooks.useMarketQuery Hooks.sample_keys (Hooks.str "m1") None) = true
  /\ Hooks.fetches
       (Hooks.useMarketQuery Hooks.sample_keys (Hooks.str "m1") None)
     = [Hooks.fetchMarketById (Hooks.str "m1")]
  /\ Hooks.observed
       (Hooks.useMarketQuery Hooks.sample_keys (Hooks.str "m1") None)
       !! "queryKey"
     = Some (Hooks.JString "market").
Proof.
  assert (Hs : "m1" <> "") by (intro H; discriminate H).
  exact (hooks_fetch_their_id Hooks.sample_keys "m1" None Hs
           eq_refl eq_refl eq_refl
           (Hooks.MarketById (Hooks.str "m1")) (or_introl eq_refl)).
Defined.

(** [useAccountQuery("0xabc", { enabled: false })]. *)
Lemma hooks_switched_off_by_caller_witness :
  Hooks.disabled
    (Hooks.useAccountQuery Hooks.sample_keys (Hooks.str "0xabc")
       (Some (<["enabled" := Hooks.JBool false]> ∅))).
Proof.
  exact (hooks_switched_off_by_caller Hooks.sample_keys
           (Hooks.AccountById (Hooks.str "0xabc"))
           (Some (<["enabled" := Hooks.JBool false]> ∅)) eq_refl).
Defined.

Lemma listing_hooks_always_fetch_witness :
  (Hooks.isEnabled (Hooks.usePlatformMetricsQuery Hooks.sample_keys None)
   = true
   /\ Hooks.fetches (Hooks.usePlatformMetricsQuery Hooks.sample_keys None)
      = [Hooks.fetchPlatformMetrics])
  /\ (Hooks.isEnabled (Hooks.useMarketsQuery Hooks.sample_keys None) = true
      /\ Hooks.fetches (Hooks.useMarketsQuery Hooks.sample_keys None)
         = [Hooks.fetchMarkets]).
Proof.
  assert (H : forall v : Hooks.JsVal,
             Hooks.supplied None "enabled" = Some v ->
             Hooks.nullish v = true \/ v = Hooks.JBool true)
    by (intros v H; discriminate H).
  exact (listing_hooks_always_fetch Hooks.sample_keys None H eq_refl).
Defined.

(* ===================================================================== *)
(** ** The read hooks of the facade *)
(* ===================================================================== *)

(** X20.  The preview hooks ask the chain the question the mutations
    quote from.  For a connected wallet: with a positive amount
    [useBuyPreview] is enabled and describes the first call of [buy]; with
    a non-positive amount both previews are disabled and [buy] calls
    nothing; and whenever [sell] reaches its quote, [useSellPreview] is
    enabled and describes that fifth call. *)
Theorem previews_match_mutation_quotes
    config this depositAmount slippageBps :
  truthy (account_address config) = true ->
  let b := buy config this
             {| buy_depositAmount := depositAmount;
                buy_slippageBps := slippageBps |} in
  let s := sell config this
             {| sell_depositAmount := depositAmount;
                sell_slippageBps := slippageBps |} in
  (0 < depositAmount ->
   rc_enabled (useBuyPreview this depositAmount) = Some true
   /\ wire <$> head (issued b) = rc_wire (useBuyPreview this depositAmount))
  /\
  (depositAmount <= 0 ->
   rc_enabled (useBuyPreview this depositAmount) = Some false
   /\ rc_enabled (useSellPreview this depositAmount) = Some false
   /\ issued b = [])
  /\
  (forall expectedOut : Z,
     sell_quoted config this depositAmount expectedOut ->
     rc_enabled (useSellPreview this depositAmount) = Some true
     /\ wire <$> (issued s !! 4%nat)
        = rc_wire (useSellPreview this depositAmount)).
Proof.
  intros Hacc b s. subst b s.
  split; [| split].
  - intros Hpos. split.
    + cbn. unfold BigInt. destruct (Z.gtb_spec depositAmount 0); [reflexivity | lia].
    + unfold buy. async_unfold. rewrite Hacc. cbn.
      destruct (Z.leb_spec depositAmount 0) as [Hle | _]; [lia |].
      case_chain; reflexivity.
  - intros Hle.
    assert (Hgt : (depositAmount >? BigInt 0) = false)
      by (unfold BigInt; destruct (Z.gtb_spec depositAmount 0); [lia | reflexivity]).
    cbn. rewrite Hgt. repeat split.
    unfold buy. async_unfold. rewrite Hacc. cbn.
    destruct (Z.leb_spec depositAmount 0) as [_ | Hgt']; [reflexivity | lia].
  - intros expectedOut Hq. split.
    + destruct Hq as (_ & Hpos & _). cbn. unfold BigInt.
      destruct (Z.gtb_spec depositAmount 0); [reflexivity | lia].
    + destruct (sell_submission_inversion config this depositAmount
                  slippageBps) as (out & tok & _ & Hissued).
      { rewrite (sell_submits _ _ _ slippageBps _ Hq). discriminate. }
      cbv zeta in Hissued. rewrite Hissued. reflexivity.
Qed.

Lemma previews_match_mutation_quotes_witness :
  (rc_enabled (useBuyPreview sample_market 1000) = Some true
   /\ wire <$> head (issued (buy (sample_config true true 1000 1000 2000)
                               sample_market
                               {| buy_depositAmount := 1000;
                                  buy_slippageBps := None |}))
      = rc_wire (useBuyPreview sample_market 1000))
  /\
  (rc_enabled (useSellPreview sample_market 1000) = Some true
   /\ wire <$> (issued (sell (sample_config true true 1000 1000 2000)
                          sample_market
                          {| sell_depositAmount := 1000;
                             sell_slippageBps := None |}) !! 4%nat)
      = rc_wire (useSellPreview sample_market 1000)).
Proof.
  destruct (previews_match_mutation_quotes
              (sample_config true true 1000 1000 2000) sample_market
              1000 None eq_refl) as (Hb & _ & Hs).
  split.
  - exact (Hb eq_refl).
  - exact (Hs 2000 (sample_sell_quoted 2000)).
Defined.

(** X21.  [useFTokenAllowance] is enabled only when both the token
    address and the owner are known, and then it describes
    [allowance(owner, market)] on the issuance token: the read that
    [getFTokenAllowance] issues second for that owner. *)
Theorem allowance_hook_is_well_formed
    (data : UseReadContractParameters -> option Address)
    (this : Market) (owner : option Address) :
  rc_enabled (useFTokenAllowance data this owner) = Some true ->
  exists fTokenAddress account_ : Address,
    data (useFTokenAddress this) = Some fTokenAddress
    /\ owner = Some account_
    /\ rc_wire (useFTokenAllowance data this owner)
       = Some (wire (Read fTokenAddress
                       (allowance account_ (marketAddress this))))
    /\ forall config : Config,
         account_address config = owner ->
         chain_read config Address (marketAddress this) getIssuanceToken
           = inr fTokenAddress ->
         wire <$> (issued (getFTokenAllowance (inr config) this) !! 1%nat)
         = rc_wire (useFTokenAllowance data this owner).
Proof.
  unfold useFTokenAllowance, rc_wire. cbn.
  destruct (data (useFTokenAddress this)) as [tok |] eqn:Hdata;
    cbn; [| discriminate].
  destruct owner as [own |]; cbn;
    [| rewrite andb_false_r; discriminate].
  intros Hen. injection Hen as Hen.
  apply andb_prop in Hen. destruct Hen as [Htok Hown].
  exists tok, own. rewrite Hown. cbn.
  repeat split.
  intros config Hacc Hread.
  assert (Htruthy : truthy (account_address config) = true)
    by (rewrite Hacc; exact Hown).
  destruct (getFTokenAllowance_connected config this tok Htruthy Hread)
    as [_ Hissued].
  rewrite Hissued, Hacc. reflexivity.
Qed.

Lemma allowance_hook_is_well_formed_witness :
  exists fTokenAddress account_ : Address,
    sample_data (Some sample_token) (useFTokenAddress sample_market)
      = Some fTokenAddress
    /\ Some sample_owner = Some account_
    /\ rc_wire (useFTokenAllowance (sample_data (Some sample_token))
                  sample_market (Some sample_owner))
       = Some (wire (Read fTokenAddress
                       (allowance account_ (marketAddress sample_market))))
    /\ forall config : Config,
         account_address config = Some sample_owner ->
         chain_read config Address (marketAddress sample_market)
           getIssuanceToken = inr fTokenAddress ->
         wire <$> (issued (getFTokenAllowance (inr config) sample_market)
                     !! 1%nat)
         = rc_wire (useFTokenAllowance (sample_data (Some sample_token))
                      sample_market (Some sample_owner)).
Proof.
  exact (allowance_hook_is_well_formed (sample_data (Some sample_token))
           sample_market (Some sample_owner) eq_refl).
Defined.

(** X22.  Whatever the chain answers, [actions.approve] issues at most the
    token-address read followed by one approval, and that approval is
    always on the issuance token the market named, with the market itself
    as spender and the positive amount asked for. *)
Theorem approve_calls_shape config this amount_ :
  let a := approve config this {| amount := amount_ |} in
  issued a = []
  \/ issued a = [Read (marketAddress this) getIssuanceToken]
  \/ exists fTokenAddress : Address,
       truthy (account_address config) = true
       /\ 0 < amount_
       /\ chain_read config Address (marketAddress this) getIssuanceToken
          = inr fTokenAddress
       /\ issued a
          = [Read (marketAddress this) getIssuanceToken;
             Write fTokenAddress (fn_approve (marketAddress this) amount_)].
Proof.
  intros a. subst a. unfold approve. async_unfold.
  destruct (truthy (account_address config)) eqn:Hacc; cbn;
    [| left; reflexivity].
  destruct (Z.leb_spec amount_ 0) as [Hle | Hpos]; cbn;
    [left; reflexivity |].
  destruct (chain_read config string (marketAddress this) getIssuanceToken)
    as [e | tok] eqn:Htok; cbn; [right; left; reflexivity |].
  right; right. exists tok.
  split; [reflexivity |]. split; [exact Hpos |]. split; [reflexivity |].
  destruct (chain_write config tok _); reflexivity.
Qed.
